(** * pyattck: the [AttckObject] base class

    A shallow embedding of [pyattck/enterprise/attckobject.py]: the attribute
    normalisation helpers every ATT&CK entity class inherits, and the
    class-level relationship index built by [set_relationships].

    The records handled by the class are parsed JSON documents, so the
    embedding works over a type of JSON values.  Python exceptions are made
    explicit with a small error monad; the class attribute [_RELATIONSHIPS] is
    threaded through [set_relationships] as an explicit state. *)

From Stdlib Require Import List String Ascii ZArith Bool Lia.
Import ListNotations.
Open Scope string_scope.
Open Scope list_scope.

(** ** Exceptions *)

Inductive exn : Type :=
| TypeError
| KeyError
| AttributeError
| ValueError.

Inductive result (A : Type) : Type :=
| Ok (a : A)
| Raise (e : exn).

Arguments Ok {A} a.
Arguments Raise {A} e.

Definition bind {A B : Type} (c : result A) (k : A -> result B) : result B :=
  match c with
  | Ok a => k a
  | Raise e => Raise e
  end.

Notation "x <- c ;; k" := (bind c (fun x => k))
  (at level 61, c at next level, right associativity).

(** [try: body except: handler], with a bare [except] clause. *)
Definition try_except {A : Type} (body handler : result A) : result A :=
  match body with
  | Ok a => Ok a
  | Raise _ => handler
  end.

Definition returns {A : Type} (c : result A) : Prop := exists a, c = Ok a.

(** ** JSON values

    What [json.load] produces, floats apart: [None], booleans, integers,
    strings, lists and dicts with string keys.  A character of a [string]
    stands for a code point below 256.  A dict is an association list in
    insertion order; lookup takes the first binding of a key. *)

#[warning="-register-all"]
Inductive value : Type :=
| VNone
| VBool (b : bool)
| VInt (n : Z)
| VStr (s : string)
| VList (items : list value)
| VDict (fields : list (string * value)).

Fixpoint dict_get (d : list (string * value)) (k : string) : option value :=
  match d with
  | [] => None
  | (k', v) :: d' => if String.eqb k k' then Some v else dict_get d' k
  end.

Definition dict_keys (d : list (string * value)) : list string :=
  rev (nodup string_dec (rev (map fst d))).

(** ** The Python operations the class uses *)

(** [bool(v)] *)
Definition truthy (v : value) : bool :=
  match v with
  | VNone => false
  | VBool b => b
  | VInt n => negb (Z.eqb n 0)
  | VStr s => negb (String.eqb s "")
  | VList l => match l with [] => false | _ => true end
  | VDict d => match d with [] => false | _ => true end
  end.

(** [v == 'lit'] for a string literal *)
Definition py_eq_str (v : value) (lit : string) : bool :=
  match v with
  | VStr s => String.eqb s lit
  | _ => false
  end.

(** [needle in hay] on strings: substring test *)
Fixpoint str_contains (needle hay : string) : bool :=
  String.prefix needle hay ||
  match hay with
  | EmptyString => false
  | String _ hay' => str_contains needle hay'
  end.

Fixpoint chars (s : string) : list string :=
  match s with
  | EmptyString => []
  | String c s' => String c EmptyString :: chars s'
  end.

(** [for item in v]: the items, or [TypeError] when [v] is not iterable *)
Definition py_iter (v : value) : result (list value) :=
  match v with
  | VList l => Ok l
  | VStr s => Ok (map VStr (chars s))
  | VDict d => Ok (map VStr (dict_keys d))
  | VNone | VBool _ | VInt _ => Raise TypeError
  end.

(** ['lit' in v] *)
Definition py_contains (lit : string) (v : value) : result bool :=
  match v with
  | VDict d => Ok (match dict_get d lit with Some _ => true | None => false end)
  | VList l => Ok (existsb (fun x => py_eq_str x lit) l)
  | VStr s => Ok (str_contains lit s)
  | VNone | VBool _ | VInt _ => Raise TypeError
  end.

(** [v['lit']] *)
Definition py_getitem (v : value) (lit : string) : result value :=
  match v with
  | VDict d => match dict_get d lit with Some x => Ok x | None => Raise KeyError end
  | _ => Raise TypeError
  end.

(** [v.get('lit')] *)
Definition py_get (v : value) (lit : string) : result value :=
  match v with
  | VDict d => Ok (match dict_get d lit with Some x => x | None => VNone end)
  | _ => Raise AttributeError
  end.

(** *** Strings: [split] and [strip] *)

(** [s.split(sep)] for a one-character separator *)
Fixpoint split (sep : ascii) (s : string) : list string :=
  match s with
  | EmptyString => [EmptyString]
  | String c s' =>
      if Ascii.eqb c sep then EmptyString :: split sep s'
      else match split sep s' with
           | [] => [String c EmptyString]
           | piece :: pieces => String c piece :: pieces
           end
  end.

(** [str.isspace] on the code points below 256 *)
Definition is_space (c : ascii) : bool :=
  let n := nat_of_ascii c in
  (Nat.leb 9 n && Nat.leb n 13) || (Nat.leb 28 n && Nat.leb n 32) ||
  Nat.eqb n 133 || Nat.eqb n 160.

Fixpoint lstrip (s : string) : string :=
  match s with
  | EmptyString => EmptyString
  | String c s' => if is_space c then lstrip s' else s
  end.

Fixpoint rstrip (s : string) : string :=
  match s with
  | EmptyString => EmptyString
  | String c s' =>
      match rstrip s' with
      | EmptyString => if is_space c then EmptyString else String c EmptyString
      | t => String c t
      end
  end.

Definition strip (s : string) : string := rstrip (lstrip s).

(** *** Dicts keyed by JSON values

    [relationship_obj] is keyed by whatever [source_ref] and [target_ref]
    hold.  Lists and dicts are unhashable; the other values are compared the
    way Python compares keys, with [True == 1] and [False == 0]. *)

Definition hashable (v : value) : bool :=
  match v with
  | VList _ | VDict _ => false
  | _ => true
  end.

Definition key_eqb (a b : value) : bool :=
  match a, b with
  | VNone, VNone => true
  | VStr s, VStr t => String.eqb s t
  | VBool x, VBool y => Bool.eqb x y
  | VInt x, VInt y => Z.eqb x y
  | VBool x, VInt y | VInt y, VBool x => Z.eqb (if x then 1 else 0) y
  | _, _ => false
  end.

Definition index : Type := list (value * list value).

Fixpoint idx_lookup (k : value) (m : index) : option (list value) :=
  match m with
  | [] => None
  | (k', l) :: m' => if key_eqb k k' then Some l else idx_lookup k m'
  end.

Fixpoint idx_store (k : value) (l : list value) (m : index) : index :=
  match m with
  | [] => [(k, l)]
  | (k', l') :: m' =>
      if key_eqb k k' then (k', l) :: m' else (k', l') :: idx_store k l m'
  end.

(** [k not in m] *)
Definition dict_not_in (k : value) (m : index) : result bool :=
  if hashable k
  then Ok (match idx_lookup k m with Some _ => false | None => true end)
  else Raise TypeError.

(** [m[k] = l] *)
Definition dict_setitem (k : value) (l : list value) (m : index) : result index :=
  if hashable k then Ok (idx_store k l m) else Raise TypeError.

(** [m[k].append(x)]: the list bound to [k] is extended in place.  The lists
    of [relationship_obj] are created by the scan and bound to one key each,
    so the extension shows under that key only. *)
Definition dict_append (k x : value) (m : index) : result index :=
  if hashable k then
    match idx_lookup k m with
    | Some l => Ok (idx_store k (l ++ [x]) m)
    | None => Raise KeyError
    end
  else Raise TypeError.

(** The adjacency list of [k]: its binding, or nothing when [k] is unknown. *)
Definition related (m : index) (k : value) : list value :=
  match idx_lookup k m with
  | Some l => l
  | None => []
  end.

(** [for item in items: body], threading the variables the body updates. *)
Fixpoint for_each {S : Type} (body : S -> value -> result S)
    (items : list value) (s : S) : result S :=
  match items with
  | [] => Ok s
  | item :: rest => s' <- body s item;; for_each body rest s'
  end.

(** [lst.append(item)] as a loop body *)
Definition append_item (lst : list value) (item : value) : result (list value) :=
  Ok (lst ++ [item]).

(** [v.split(':')] *)
Definition py_split (v : value) (sep : ascii) : result (list string) :=
  match v with
  | VStr s => Ok (split sep s)
  | _ => Raise AttributeError
  end.

(** [a, b = pieces] *)
Definition unpack2 (pieces : list string) : result (string * string) :=
  match pieces with
  | [a; b] => Ok (a, b)
  | _ => Raise ValueError
  end.

(** ** The class *)

Module AttckObject.

(** The attributes [__init__] sets on an instance. *)
Record instance : Type := {
  id : value;
  name : value;
  alias : value;
  aliases : value;
  description : value;
  reference : value;
  created : value;
  modified : value;
  stix : value;
  type : value
}.

(** The class attribute [_RELATIONSHIPS]: [None], or the dict a scan stored. *)
Definition relationships : Type := option index.

(** [not AttckObject._RELATIONSHIPS] *)
Definition not_relationships (r : relationships) : bool :=
  match r with
  | None => true
  | Some [] => true
  | Some (_ :: _) => false
  end.

(** The body of the loop of [set_relationships]. *)
Definition relationship_item (relationship_obj : index) (item : value)
    : result index :=
  has_type <- py_contains "type" item;;
  if has_type then
    ty <- py_getitem item "type";;
    if py_eq_str ty "relationship" then
      source_id <- py_getitem item "source_ref";;
      target_id <- py_getitem item "target_ref";;
      fresh_source <- dict_not_in source_id relationship_obj;;
      obj1 <- (if fresh_source
               then dict_setitem source_id [] relationship_obj
               else Ok relationship_obj);;
      obj2 <- dict_append source_id target_id obj1;;
      fresh_target <- dict_not_in target_id obj2;;
      obj3 <- (if fresh_target
               then dict_setitem target_id [] obj2
               else Ok obj2);;
      dict_append target_id source_id obj3
    else Ok relationship_obj
  else Ok relationship_obj.

(** [set_relationships]: the class attribute before the call is the first
    argument, the one after the call is the result.  An exception leaves the
    attribute as it was: the assignment is the last statement. *)
Definition set_relationships (RELATIONSHIPS : relationships) (attck_obj : value)
    : result relationships :=
  if not_relationships RELATIONSHIPS then
    objects <- py_getitem attck_obj "objects";;
    items <- py_iter objects;;
    relationship_obj <- for_each relationship_item items [];;
    Ok (Some relationship_obj)
  else Ok RELATIONSHIPS.

Definition __set_alias (obj : value) : result value :=
  primary <- py_get obj "aliases";;
  return_list <- (if truthy primary then
                    field <- py_getitem obj "aliases";;
                    items <- py_iter field;;
                    for_each append_item items []
                  else Ok []);;
  secondary <- py_get obj "x_mitre_aliases";;
  return_list <- (if truthy secondary then
                    field <- py_getitem obj "x_mitre_aliases";;
                    items <- py_iter field;;
                    for_each append_item items return_list
                  else Ok return_list);;
  Ok (VList return_list).

Definition _set_attribute (obj : value) (name : string) : result value :=
  try_except
    (value <- py_get obj name;;
     Ok (if negb (truthy value) then VNone else value))
    (Ok VNone).

(** The body of the loop of [_create_data_sources_dict]. *)
Definition data_source_item (return_dict : index) (item : value) : result index :=
  has_separator <- py_contains ":" item;;
  if has_separator then
    pieces <- py_split item ":"%char;;
    pair <- unpack2 pieces;;
    let data_source := VStr (fst pair) in
    let data_component := snd pair in
    fresh <- dict_not_in data_source return_dict;;
    dict1 <- (if fresh
              then dict_setitem data_source [] return_dict
              else Ok return_dict);;
    dict_append data_source (VStr (strip data_component)) dict1
  else Ok return_dict.

Definition _create_data_sources_dict (obj : value) : result index :=
  match obj with
  | VList items => for_each data_source_item items []
  | _ => Ok []
  end.

(** A call that falls off the end of the body returns [None]. *)
Definition _set_list_items (obj : value) (list_name : string) : result value :=
  present <- py_contains list_name obj;;
  if present then
    field <- py_getitem obj list_name;;
    items <- py_iter field;;
    item_value <- for_each append_item items [];;
    Ok (VList item_value)
  else Ok VNone.

(** The loop of [_set_id]: [Some v] when an iteration returns [v], [None]
    when the loop runs to its end. *)
Fixpoint _set_id_loop (references : list value) : result (option value) :=
  match references with
  | [] => Ok None
  | p :: rest =>
      source_name <- py_get p "source_name";;
      if py_eq_str source_name "mitre-attack" then
        external_id <- py_get p "external_id";;
        Ok (Some external_id)
      else
        source_name <- py_get p "source_name";;
        is_nist <- py_contains "NIST" source_name;;
        if is_nist then
          external_id <- py_get p "external_id";;
          Ok (Some external_id)
        else _set_id_loop rest
  end.

Definition _set_id (obj : value) : result value :=
  references <- py_get obj "external_references";;
  if truthy references then
    field <- py_getitem obj "external_references";;
    items <- py_iter field;;
    found <- _set_id_loop items;;
    match found with
    | Some external_id => Ok external_id
    | None => Ok (VStr "No ID Defined")
    end
  else Ok (VStr "No ID Defined").

(** The loop of [_set_wiki], read as the one of [_set_id]: [None] when the
    loop runs to its end, after which the method returns nothing. *)
Fixpoint _set_wiki_loop (references : list value) : result (option value) :=
  match references with
  | [] => Ok None
  | p :: rest =>
      source_name <- py_get p "source_name";;
      if py_eq_str source_name "mitre-attack" then
        url <- py_get p "url";;
        Ok (Some url)
      else _set_wiki_loop rest
  end.

Definition _set_wiki (obj : value) : result value :=
  references <- py_get obj "external_references";;
  if truthy references then
    field <- py_getitem obj "external_references";;
    items <- py_iter field;;
    found <- _set_wiki_loop items;;
    match found with
    | Some url => Ok url
    | None => Ok VNone
    end
  else Ok VNone.

Definition _set_reference (obj : value) : result value :=
  references <- py_get obj "external_references";;
  return_list <- (if truthy references then
                    field <- py_getitem obj "external_references";;
                    items <- py_iter field;;
                    for_each append_item items []
                  else Ok []);;
  Ok (VList return_list).

(** The constructor: its keyword arguments reach the methods as one dict. *)
Definition __init__ (kwargs : list (string * value)) : result instance :=
  let obj := VDict kwargs in
  id <- _set_id obj;;
  name <- _set_attribute obj "name";;
  alias <- __set_alias obj;;
  let aliases := alias in
  description <- _set_attribute obj "description";;
  reference <- _set_reference obj;;
  created <- _set_attribute obj "created";;
  modified <- _set_attribute obj "modified";;
  stix <- _set_attribute obj "id";;
  type <- _set_attribute obj "type";;
  Ok {| id := id; name := name; alias := alias; aliases := aliases;
        description := description; reference := reference;
        created := created; modified := modified; stix := stix;
        type := type |}.

End AttckObject.

Import AttckObject.

(** * Notions used in the statements *)

(** The normal form of a key: two values are the same key exactly when they
    are hashable and have the same normal form. *)
Inductive key : Type :=
| KNone
| KNum (n : Z)
| KStr (s : string).

Definition key_of (v : value) : option key :=
  match v with
  | VNone => Some KNone
  | VBool b => Some (KNum (if b then 1 else 0))
  | VInt n => Some (KNum n)
  | VStr s => Some (KStr s)
  | VList _ | VDict _ => None
  end.

(** The effect of [if k not in m: m[k] = []] followed by
    [m[k].append(x)]. *)
Definition push (k x : value) (m : index) : index :=
  idx_store k (related m k ++ [x]) m.

(** ** Relationship records

    The edge a record declares: the record is a dict whose [type] is
    ["relationship"] and which has a [source_ref] and a [target_ref]. *)
Definition edge_of (item : value) : option (value * value) :=
  match item with
  | VDict d =>
      match dict_get d "type", dict_get d "source_ref", dict_get d "target_ref" with
      | Some ty, Some s, Some t =>
          if py_eq_str ty "relationship" then Some (s, t) else None
      | _, _, _ => None
      end
  | _ => None
  end.

Definition is_relationship (item : value) : bool :=
  match edge_of item with
  | Some _ => true
  | None => false
  end.

(** What the edge from [s] to [t] adds to the adjacency list of [k]: the
    target under the source, then the source under the target. *)
Definition edge_targets (k : value) (e : value * value) : list value :=
  (if key_eqb k (fst e) then [snd e] else []) ++
  (if key_eqb k (snd e) then [fst e] else []).

(** The adjacency list of [k] read off the records, in encounter order. *)
Definition neighbours (k : value) (items : list value) : list value :=
  flat_map (fun item => match edge_of item with
                        | Some e => edge_targets k e
                        | None => []
                        end) items.

(** A record the scan accepts: a dict that is not a relationship, or a
    relationship whose two ends are present and hashable. *)
Definition scannable (item : value) : bool :=
  match item with
  | VDict d =>
      match dict_get d "type" with
      | Some ty =>
          if py_eq_str ty "relationship" then
            match dict_get d "source_ref", dict_get d "target_ref" with
            | Some s, Some t => hashable s && hashable t
            | _, _ => false
            end
          else true
      | None => true
      end
  | _ => false
  end.

(** *** Sample data *)

Definition relationship_record (s t : string) : value :=
  VDict [("type", VStr "relationship");
         ("source_ref", VStr s); ("target_ref", VStr t)].

Definition dataset (objects : list value) : value :=
  VDict [("objects", VList objects)].

(** ** Reading a record *)

(** The value [d.get(k)] gives: the field, or [None] when it is missing. *)
Definition field_or_none (d : list (string * value)) (k : string) : value :=
  match dict_get d k with
  | Some v => v
  | None => VNone
  end.

(** ** External references

    A reference entry is a dict whose [source_name] is a string.  It
    qualifies when that string is ["mitre-attack"] or contains ["NIST"]. *)
Definition reference_entry (p : value) : bool :=
  match p with
  | VDict e => match dict_get e "source_name" with
               | Some (VStr _) => true
               | _ => false
               end
  | _ => false
  end.

Definition qualifies (p : value) : bool :=
  match p with
  | VDict e => match dict_get e "source_name" with
               | Some (VStr s) =>
                   String.eqb s "mitre-attack" || str_contains "NIST" s
               | _ => false
               end
  | _ => false
  end.

Definition external_id_of (p : value) : value :=
  match p with
  | VDict e => field_or_none e "external_id"
  | _ => VNone
  end.

(** The identifier read off a list of reference entries: the [external_id]
    of the first qualifying one, the sentinel when there is none. *)
Definition resolve_identifier (references : list value) : value :=
  match find qualifies references with
  | Some p => external_id_of p
  | None => VStr "No ID Defined"
  end.

Definition nist_reference : value :=
  VDict [("source_name", VStr "NIST 800-53"); ("external_id", VStr "AC-2")].

Definition mitre_reference : value :=
  VDict [("source_name", VStr "mitre-attack"); ("external_id", VStr "T1078")].

(** The entries of a list-valued field: those of a non-empty list, none when
    the field is missing, [None] or empty. *)
Definition entries_of (obj : list (string * value)) (name : string)
    : option (list value) :=
  match dict_get obj name with
  | None => Some []
  | Some v =>
      if truthy v then
        match v with
        | VList entries => Some entries
        | _ => None
        end
      else Some []
  end.

Definition references_of (obj : list (string * value)) : option (list value) :=
  entries_of obj "external_references".

(** The value of a field after normalisation: the field itself when it is
    present and truthy, [None] otherwise. *)
Definition attribute (obj : list (string * value)) (name : string) : value :=
  match dict_get obj name with
  | Some v => if truthy v then v else VNone
  | None => VNone
  end.

(** The values Python takes for false. *)
Definition falsy_values : list value :=
  [VNone; VBool false; VInt 0; VStr ""; VList []; VDict []].

Definition technique_record : list (string * value) :=
  [("type", VStr "attack-pattern");
   ("id", VStr "attack-pattern--b17a1a56");
   ("name", VStr "Valid Accounts");
   ("description", VStr "");
   ("aliases", VList [VStr "A"; VStr "B"]);
   ("x_mitre_aliases", VList [VStr "C"]);
   ("x_mitre_platforms", VList [VStr "Windows"; VStr "Linux"]);
   ("x_mitre_contributors", VList []);
   ("external_references", VList [mitre_reference; nist_reference])].

(** ** Data sources

    An entry of shape ["<source>:<component>"] is cut at its separator.  *)
Fixpoint separators (s : string) : nat :=
  match s with
  | EmptyString => 0
  | String c s' => (if Ascii.eqb c ":" then 1 else 0) + separators s'
  end.

Fixpoint cut (s : string) : option (string * string) :=
  match s with
  | EmptyString => None
  | String c s' =>
      if Ascii.eqb c ":" then Some (EmptyString, s')
      else match cut s' with
           | Some (source, component) => Some (String c source, component)
           | None => None
           end
  end.

(** The components listed under [source], trimmed, in encounter order;
    entries without a separator give none. *)
Definition components (source : string) (items : list string) : list value :=
  flat_map (fun item => match cut item with
                        | Some (src, component) =>
                            if String.eqb source src
                            then [VStr (strip component)]
                            else []
                        | None => []
                        end) items.

Definition sample_data_sources : list string :=
  ["Process: Process Creation"; "File:File Access"; "nocolon"].

(** ** Further notions *)

Definition is_dict (v : value) : bool :=
  match v with
  | VDict _ => true
  | _ => false
  end.

(** What a [for] loop accepts. *)
Definition iterable (v : value) : bool :=
  match v with
  | VList _ | VStr _ | VDict _ => true
  | VNone | VBool _ | VInt _ => false
  end.

(** An entry named ["mitre-attack"], and the [url] it holds. *)
Definition is_mitre (p : value) : bool :=
  match p with
  | VDict e => py_eq_str (field_or_none e "source_name") "mitre-attack"
  | _ => false
  end.

Definition url_of (p : value) : value :=
  match p with
  | VDict e => field_or_none e "url"
  | _ => VNone
  end.

(** A field a loop can run over: missing, falsy, or iterable. *)
Definition loopable (obj : list (string * value)) (name : string) : bool :=
  negb (truthy (field_or_none obj name)) || iterable (field_or_none obj name).

(** The number of entries of a dict of lists, all keys together. *)
Definition total_length (m : index) : nat :=
  list_sum (map (fun binding => List.length (snd binding)) m).

(** A string with no whitespace at either end. *)
Definition starts_with_space (s : string) : bool :=
  match s with
  | EmptyString => false
  | String c _ => is_space c
  end.

Fixpoint ends_with_space (s : string) : bool :=
  match s with
  | EmptyString => false
  | String c EmptyString => is_space c
  | String _ s' => ends_with_space s'
  end.

Definition trimmed (s : string) : bool :=
  negb (starts_with_space s) && negb (ends_with_space s).

Definition group_record : list (string * value) :=
  [("type", VStr "intrusion-set");
   ("name", VStr "APT1");
   ("aliases", VStr "APT1");
   ("x_mitre_aliases", VInt 7);
   ("revoked", VBool false);
   ("x_mitre_version", VNone);
   ("labels", VList []);
   ("external_references",
    VList [VDict [("external_id", VStr "G0006")];
           VDict [("source_name", VStr "mitre-attack");
                  ("url", VStr "https://attack.mitre.org/groups/G0006")]])].

(** What a loop over a field appends: nothing for a missing or falsy field,
    otherwise what iterating the field yields. *)
Definition loop_entries (obj : list (string * value)) (name : string)
    : list value :=
  if truthy (field_or_none obj name) then
    match py_iter (field_or_none obj name) with
    | Ok items => items
    | Raise _ => []
    end
  else [].

(** The exception a relationship record stops the scan with: [KeyError]
    when an end is missing, [TypeError] when an end cannot be a key. *)
Definition record_error (item : list (string * value)) : option exn :=
  match dict_get item "type" with
  | Some ty =>
      if py_eq_str ty "relationship" then
        match dict_get item "source_ref", dict_get item "target_ref" with
        | Some s, Some t =>
            if hashable s && hashable t then None else Some TypeError
        | _, _ => Some KeyError
        end
      else None
  | None => None
  end.

(** A dict of the scan binds no key to an empty list: a key is bound when
    its first entry is appended. *)
Definition no_empty_list (m : index) : Prop :=
  forall k l, idx_lookup k m = Some l -> l <> [].

(** The binding that goes with an adjacency list. *)
Definition binding (l : list value) : option (list value) :=
  match l with
  | [] => None
  | _ :: _ => Some l
  end.

(** * Properties *)

(** ** Loops that only append *)

Lemma for_each_append (items acc : list value) :
  for_each append_item items acc = Ok (acc ++ items).
Proof.
  revert acc; induction items as [|item rest IH]; intro acc; simpl.
  - now rewrite app_nil_r.
  - rewrite IH, <- app_assoc. reflexivity.
Qed.

(** ** Keys *)

Lemma key_eqb_spec (a b : value) :
  key_eqb a b = true <-> exists k, key_of a = Some k /\ key_of b = Some k.
Proof.
  split.
  - destruct a, b; simpl; try discriminate; intro H.
    + now exists KNone.
    + apply Bool.eqb_prop in H; subst. eauto.
    + apply Z.eqb_eq in H; subst. eauto.
    + apply Z.eqb_eq in H; subst. eauto.
    + apply Z.eqb_eq in H; subst. eauto.
    + apply String.eqb_eq in H; subst. eauto.
  - intros (k & Ha & Hb).
    destruct a as [|x|x|x|x|x], b as [|y|y|y|y|y]; simpl in *;
      try discriminate; try reflexivity;
      rewrite <- Hb in Ha; injection Ha as Ha; try discriminate.
    + destruct x, y; simpl in *; try reflexivity; discriminate.
    + subst. apply Z.eqb_refl.
    + subst. apply Z.eqb_refl.
    + subst. apply Z.eqb_refl.
    + subst. apply String.eqb_refl.
Qed.

Lemma key_eqb_refl (a : value) : hashable a = true -> key_eqb a a = true.
Proof.
  intro H. apply key_eqb_spec.
  destruct a; simpl in *; try discriminate; eauto.
Qed.

Lemma key_eqb_hashable (a b : value) :
  key_eqb a b = true -> hashable a = true /\ hashable b = true.
Proof.
  intro H. apply key_eqb_spec in H. destruct H as (k & Ha & Hb).
  destruct a, b; simpl in *; try discriminate; auto.
Qed.

Lemma key_eqb_sym (a b : value) : key_eqb a b = key_eqb b a.
Proof.
  destruct (key_eqb a b) eqn:Hab, (key_eqb b a) eqn:Hba; try reflexivity.
  - apply key_eqb_spec in Hab. destruct Hab as (k & Ha & Hb).
    rewrite <- Hba. symmetry. apply key_eqb_spec. eauto.
  - apply key_eqb_spec in Hba. destruct Hba as (k & Hb & Ha).
    rewrite <- Hab. apply key_eqb_spec. eauto.
Qed.

Lemma key_eqb_trans (a b c : value) :
  key_eqb a b = true -> key_eqb b c = true -> key_eqb a c = true.
Proof.
  intros Hab Hbc.
  apply key_eqb_spec in Hab. destruct Hab as (k & Ha & Hb).
  apply key_eqb_spec in Hbc. destruct Hbc as (k' & Hb' & Hc).
  apply key_eqb_spec. exists k. split; [assumption|]. congruence.
Qed.

(** Equal keys are interchangeable on either side of a comparison. *)
Lemma key_eqb_congr (a b c : value) :
  key_eqb a b = true -> key_eqb c a = key_eqb c b.
Proof.
  intro Hab.
  destruct (key_eqb c a) eqn:Hca, (key_eqb c b) eqn:Hcb; try reflexivity.
  - rewrite <- Hcb. symmetry. eapply key_eqb_trans; eassumption.
  - rewrite <- Hca. eapply key_eqb_trans; [eassumption|].
    now rewrite key_eqb_sym.
Qed.

(** ** The dict operations *)

Lemma idx_lookup_congr (a b : value) (m : index) :
  key_eqb a b = true -> idx_lookup a m = idx_lookup b m.
Proof.
  intro Hab. induction m as [|[k l] m IH]; simpl; [reflexivity|].
  rewrite IH.
  replace (key_eqb a k) with (key_eqb b k); [reflexivity|].
  rewrite (key_eqb_sym b k), (key_eqb_sym a k). symmetry.
  now apply key_eqb_congr.
Qed.

Lemma idx_lookup_store (k k' : value) (l : list value) (m : index) :
  hashable k' = true ->
  idx_lookup k (idx_store k' l m) =
  if key_eqb k k' then Some l else idx_lookup k m.
Proof.
  intro Hk'. induction m as [|[k0 l0] m IH]; simpl.
  - reflexivity.
  - destruct (key_eqb k' k0) eqn:E; simpl.
    + rewrite (key_eqb_congr k' k0 k E). now destruct (key_eqb k k0).
    + rewrite IH. destruct (key_eqb k k0) eqn:E0; [|reflexivity].
      destruct (key_eqb k k') eqn:E1; [|reflexivity].
      rewrite key_eqb_sym in E1.
      rewrite (key_eqb_trans k' k k0 E1 E0) in E. discriminate.
Qed.

Lemma idx_store_store (k : value) (l1 l2 : list value) (m : index) :
  hashable k = true ->
  idx_store k l2 (idx_store k l1 m) = idx_store k l2 m.
Proof.
  intro Hk. induction m as [|[k0 l0] m IH]; simpl.
  - now rewrite key_eqb_refl.
  - destruct (key_eqb k k0) eqn:E; simpl; rewrite E; [reflexivity|].
    now rewrite IH.
Qed.

Lemma idx_store_not_nil (k : value) (l : list value) (m : index) :
  idx_store k l m <> [].
Proof.
  destruct m as [|[k0 l0] m]; simpl; [discriminate|].
  destruct (key_eqb k k0); discriminate.
Qed.

Lemma setdefault_append (k x : value) (m : index) :
  hashable k = true ->
  (fresh <- dict_not_in k m;;
   m1 <- (if fresh then dict_setitem k [] m else Ok m);;
   dict_append k x m1) = Ok (push k x m).
Proof.
  intro Hk. unfold dict_not_in, dict_setitem, dict_append, push, related.
  rewrite Hk. simpl.
  destruct (idx_lookup k m) as [l|] eqn:E; simpl.
  - now rewrite E.
  - rewrite idx_lookup_store, key_eqb_refl by assumption.
    now rewrite idx_store_store.
Qed.

Lemma setdefault_append_unhashable (k x : value) (m : index) :
  hashable k = false ->
  (fresh <- dict_not_in k m;;
   m1 <- (if fresh then dict_setitem k [] m else Ok m);;
   dict_append k x m1) = Raise TypeError.
Proof.
  intro Hk. unfold dict_not_in. now rewrite Hk.
Qed.

Lemma related_push (k x k' : value) (m : index) :
  hashable k = true ->
  related (push k x m) k' =
  related m k' ++ (if key_eqb k' k then [x] else []).
Proof.
  intro Hk. unfold push, related at 1.
  rewrite idx_lookup_store by assumption.
  destruct (key_eqb k' k) eqn:E.
  - unfold related. now rewrite (idx_lookup_congr k' k m E).
  - fold (related m k'). now rewrite app_nil_r.
Qed.

Lemma push_not_nil (k x : value) (m : index) : push k x m <> [].
Proof. apply idx_store_not_nil. Qed.

Lemma no_empty_list_nil : no_empty_list [].
Proof. intros k l H. discriminate. Qed.

Lemma no_empty_list_push (k x : value) (m : index) :
  hashable k = true -> no_empty_list m -> no_empty_list (push k x m).
Proof.
  intros Hk Hm k' l. unfold push. rewrite idx_lookup_store by assumption.
  destruct (key_eqb k' k).
  - intros [= <-]. now destruct (related m k).
  - apply Hm.
Qed.

Lemma lookup_binding (m : index) (k : value) :
  no_empty_list m -> idx_lookup k m = binding (related m k).
Proof.
  intro Hm. unfold related.
  destruct (idx_lookup k m) as [l|] eqn:E; [|reflexivity].
  destruct l; [|reflexivity]. now destruct (Hm k [] E).
Qed.

(** ** One iteration of the scan *)

Lemma setdefault_append_then {B : Type} (k x : value) (m : index)
    (rest : index -> result B) :
  hashable k = true ->
  (fresh <- dict_not_in k m;;
   m1 <- (if fresh then dict_setitem k [] m else Ok m);;
   m2 <- dict_append k x m1;;
   rest m2) = rest (push k x m).
Proof.
  intro Hk.
  pose proof (setdefault_append k x m Hk) as H.
  unfold dict_not_in in *. rewrite Hk in *. simpl in *.
  destruct (idx_lookup k m); simpl in *.
  - now rewrite H.
  - destruct (dict_setitem k [] m); simpl in *; [now rewrite H | discriminate].
Qed.

(** A relationship record with hashable ends adds its two edges. *)
Lemma relationship_item_edge (m : index) (item s t : value) :
  edge_of item = Some (s, t) ->
  hashable s = true -> hashable t = true ->
  relationship_item m item = Ok (push t s (push s t m)).
Proof.
  intros He Hs Ht. destruct item; try discriminate. simpl in He.
  unfold relationship_item, py_contains, py_getitem.
  destruct (dict_get fields "type") as [ty|]; [|discriminate].
  destruct (dict_get fields "source_ref") as [s'|]; [|discriminate].
  destruct (dict_get fields "target_ref") as [t'|]; [|discriminate].
  simpl. destruct (py_eq_str ty "relationship"); [|discriminate].
  injection He as -> ->. simpl.
  rewrite setdefault_append_then by assumption.
  now apply setdefault_append.
Qed.

(** Whatever the record, an iteration that does not raise either leaves the
    dict alone or adds the two edges of a relationship with hashable ends. *)
Lemma relationship_item_inv (m m' : index) (item : value) :
  relationship_item m item = Ok m' ->
  match edge_of item with
  | Some (s, t) =>
      hashable s = true /\ hashable t = true /\ m' = push t s (push s t m)
  | None => m' = m
  end.
Proof.
  unfold relationship_item. destruct item; simpl; try discriminate.
  - destruct (str_contains "type" s); simpl; [discriminate|].
    now intros [= <-].
  - destruct (existsb _ items); simpl; [discriminate|].
    now intros [= <-].
  - destruct (dict_get fields "type") as [ty|]; simpl;
      [|now intros [= <-]].
    destruct (py_eq_str ty "relationship");
      [|now destruct (dict_get fields "source_ref"), (dict_get fields "target_ref");
         intros [= <-]].
    destruct (dict_get fields "source_ref") as [s|]; simpl; [|discriminate].
    destruct (dict_get fields "target_ref") as [t|]; simpl; [|discriminate].
    destruct (hashable s) eqn:Hs.
    + rewrite setdefault_append_then by assumption.
      destruct (hashable t) eqn:Ht.
      * rewrite setdefault_append by assumption. now intros [= <-].
      * now rewrite setdefault_append_unhashable.
    + unfold dict_not_in. rewrite Hs. discriminate.
Qed.

Lemma relationship_item_scannable (m : index) (item : value) :
  scannable item = true -> returns (relationship_item m item).
Proof.
  intro H. destruct (edge_of item) as [[s t]|] eqn:He.
  - exists (push t s (push s t m)).
    destruct item; try discriminate. simpl in H, He.
    apply relationship_item_edge; [assumption| |].
    all: destruct (dict_get fields "type") as [ty|]; [|discriminate];
      destruct (dict_get fields "source_ref") as [s'|]; [|discriminate];
      destruct (dict_get fields "target_ref") as [t'|]; [|discriminate];
      destruct (py_eq_str ty "relationship"); [|discriminate];
      injection He as -> ->; apply andb_prop in H; tauto.
  - exists m. destruct item; try discriminate. simpl in H, He.
    unfold relationship_item, py_contains, py_getitem.
    destruct (dict_get fields "type") as [ty|]; [|reflexivity]. simpl.
    destruct (py_eq_str ty "relationship"); [|reflexivity].
    destruct (dict_get fields "source_ref"); [|discriminate].
    destruct (dict_get fields "target_ref"); discriminate.
Qed.

(** ** The whole scan *)

Lemma related_edge (m : index) (s t k : value) :
  hashable s = true -> hashable t = true ->
  related (push t s (push s t m)) k = related m k ++ edge_targets k (s, t).
Proof.
  intros Hs Ht. rewrite !related_push by assumption.
  unfold edge_targets. simpl. now rewrite app_assoc.
Qed.

Lemma scan_related (items : list value) (m0 m : index) (k : value) :
  for_each relationship_item items m0 = Ok m ->
  related m k = related m0 k ++ neighbours k items.
Proof.
  revert m0. induction items as [|item rest IH]; intros m0; simpl.
  - intros [= <-]. now rewrite app_nil_r.
  - destruct (relationship_item m0 item) as [m1|] eqn:E; simpl; [|discriminate].
    intro H. rewrite (IH _ H). apply relationship_item_inv in E.
    destruct (edge_of item) as [[s t]|].
    + destruct E as (Hs & Ht & ->).
      rewrite related_edge by assumption. now rewrite app_assoc.
    + now subst.
Qed.

Lemma scan_returns (items : list value) (m0 : index) :
  forallb scannable items = true ->
  returns (for_each relationship_item items m0).
Proof.
  revert m0. induction items as [|item rest IH]; intros m0 H; simpl in *.
  - now exists m0.
  - apply andb_prop in H. destruct H as [Hi Hr].
    destruct (relationship_item_scannable m0 item Hi) as [m1 ->].
    simpl. now apply IH.
Qed.

(** A scan never empties the dict, and a relationship record fills it. *)
Lemma scan_not_nil (items : list value) (m0 m : index) :
  for_each relationship_item items m0 = Ok m ->
  m0 <> [] \/ existsb is_relationship items = true ->
  m <> [].
Proof.
  revert m0. induction items as [|item rest IH]; intros m0; simpl.
  - intros [= <-] [H|H]; [assumption|discriminate].
  - destruct (relationship_item m0 item) as [m1|] eqn:E; simpl; [|discriminate].
    intros H Hor. apply (IH _ H). apply relationship_item_inv in E.
    unfold is_relationship in Hor.
    destruct (edge_of item) as [[s t]|].
    + left. destruct E as (_ & _ & ->). apply push_not_nil.
    + subst. simpl in Hor. tauto.
Qed.

Lemma scan_no_empty_list (items : list value) (m0 m : index) :
  for_each relationship_item items m0 = Ok m ->
  no_empty_list m0 -> no_empty_list m.
Proof.
  revert m0. induction items as [|item rest IH]; intros m0; simpl.
  - now intros [= <-].
  - destruct (relationship_item m0 item) as [m1|] eqn:E; simpl; [|discriminate].
    intros H Hm0. apply (IH _ H). apply relationship_item_inv in E.
    destruct (edge_of item) as [[s t]|].
    + destruct E as (Hs & Ht & ->). now repeat apply no_empty_list_push.
    + now subst.
Qed.

(** ** The relationship index *)

(** C4: a scan that starts from an unbuilt index stores, for every key, the
    ends of the relationship records that mention it, in encounter order:
    each record puts its [target_ref] under its [source_ref] and its
    [source_ref] under its [target_ref].  A key no record mentions is not
    bound. *)
Theorem set_relationships_edges (R : relationships)
    (attck_obj : list (string * value)) (objects : list value) :
  not_relationships R = true ->
  dict_get attck_obj "objects" = Some (VList objects) ->
  forallb scannable objects = true ->
  exists m,
    set_relationships R (VDict attck_obj) = Ok (Some m) /\
    (forall k, related m k = neighbours k objects) /\
    (forall k, idx_lookup k m = binding (neighbours k objects)).
Proof.
  intros HR Hobj Hscan. unfold set_relationships. rewrite HR. simpl.
  rewrite Hobj. simpl.
  destruct (scan_returns objects [] Hscan) as [m Hm].
  exists m. rewrite Hm.
  assert (Hrel : forall k, related m k = neighbours k objects).
  { intro k. now rewrite (scan_related _ _ _ k Hm). }
  split; [reflexivity|]. split; [exact Hrel|].
  intro k. rewrite <- Hrel. apply lookup_binding.
  exact (scan_no_empty_list _ _ _ Hm no_empty_list_nil).
Qed.

(** The records A -> B then A -> C give A the list [B, C] and B the list
    [A]. *)
Lemma set_relationships_edges_example :
  exists m,
    set_relationships None
      (dataset [relationship_record "A" "B"; relationship_record "A" "C"])
    = Ok (Some m) /\
    idx_lookup (VStr "A") m = Some [VStr "B"; VStr "C"] /\
    idx_lookup (VStr "B") m = Some [VStr "A"] /\
    related m (VStr "A") = [VStr "B"; VStr "C"] /\
    related m (VStr "B") = [VStr "A"].
Proof.
  destruct (set_relationships_edges None
              [("objects", VList [relationship_record "A" "B";
                                  relationship_record "A" "C"])]
              [relationship_record "A" "B"; relationship_record "A" "C"]
              eq_refl eq_refl eq_refl) as (m & Hm & Hrel & Hbind).
  exists m. split; [exact Hm|].
  rewrite !Hbind, !Hrel. repeat split; reflexivity.
Defined.

(** C2, as the code has it: once a call has returned, a second call leaves
    the index as it is when that index is not empty, which is the case as
    soon as the first call scanned a relationship record, and also when it
    is given the dataset of the first call again. *)
Theorem set_relationships_second_call (R R1 : relationships) (d1 : value) :
  set_relationships R d1 = Ok R1 ->
  (forall d2, not_relationships R1 = false -> set_relationships R1 d2 = Ok R1) /\
  set_relationships R1 d1 = Ok R1 /\
  (forall fields objects,
      d1 = VDict fields ->
      dict_get fields "objects" = Some (VList objects) ->
      existsb is_relationship objects = true ->
      forall d2, set_relationships R1 d2 = Ok R1).
Proof.
  intro H1.
  assert (Hkeep : forall d2, not_relationships R1 = false ->
                             set_relationships R1 d2 = Ok R1).
  { intros d2 HR1. unfold set_relationships. now rewrite HR1. }
  split; [exact Hkeep|]. split.
  - destruct (not_relationships R1) eqn:HR1; [|now apply Hkeep].
    destruct (not_relationships R) eqn:HR.
    + unfold set_relationships in *. rewrite HR in H1. rewrite HR1.
      destruct (py_getitem d1 "objects") as [objs|]; simpl in *; [|discriminate].
      destruct (py_iter objs) as [items|]; simpl in *; [|discriminate].
      destruct (for_each relationship_item items []) as [m|];
        simpl in *; [|discriminate].
      assumption.
    + unfold set_relationships in H1. rewrite HR in H1.
      injection H1 as <-. congruence.
  - intros fields objects -> Hobj Hrel d2. apply Hkeep.
    destruct (not_relationships R) eqn:HR.
    + unfold set_relationships in H1. rewrite HR in H1. simpl in H1.
      rewrite Hobj in H1. simpl in H1.
      destruct (for_each relationship_item objects []) as [m|] eqn:Hm;
        simpl in H1; [|discriminate].
      injection H1 as <-.
      pose proof (scan_not_nil objects [] m Hm (or_intror Hrel)) as Hne.
      destruct m; [contradiction|reflexivity].
    + unfold set_relationships in H1. rewrite HR in H1.
      now injection H1 as <-.
Qed.

Lemma set_relationships_second_call_example :
  (forall d2,
      set_relationships (Some [(VStr "A", [VStr "B"]); (VStr "B", [VStr "A"])]) d2
      = Ok (Some [(VStr "A", [VStr "B"]); (VStr "B", [VStr "A"])])) /\
  set_relationships (Some [(VStr "A", [VStr "B"]); (VStr "B", [VStr "A"])])
    (dataset [relationship_record "A" "B"])
  = Ok (Some [(VStr "A", [VStr "B"]); (VStr "B", [VStr "A"])]) /\
  set_relationships (Some [(VStr "A", [VStr "B"]); (VStr "B", [VStr "A"])])
    (dataset [relationship_record "C" "D"])
  = Ok (Some [(VStr "A", [VStr "B"]); (VStr "B", [VStr "A"])]).
Proof.
  destruct (set_relationships_second_call None
              (Some [(VStr "A", [VStr "B"]); (VStr "B", [VStr "A"])])
              (dataset [relationship_record "A" "B"]) eq_refl)
    as (Hfilled & Hsame & Hscanned).
  split; [|split; [exact Hsame|]].
  - intro d2. exact (Hfilled d2 eq_refl).
  - exact (Hscanned [("objects", VList [relationship_record "A" "B"])]
             [relationship_record "A" "B"] eq_refl eq_refl eq_refl
             (dataset [relationship_record "C" "D"])).
Defined.

(** After a first dataset without relationship records the index is the
    empty dict, which the guard takes for an unbuilt one: a second call with
    another dataset scans it and changes the index. *)
Lemma second_call_after_empty_scan :
  set_relationships None (dataset []) = Ok (Some []) /\
  set_relationships (Some []) (dataset [relationship_record "A" "B"])
  = Ok (Some [(VStr "A", [VStr "B"]); (VStr "B", [VStr "A"])]) /\
  ~ (forall d1 d2 R1 R2,
        set_relationships None d1 = Ok R1 ->
        set_relationships R1 d2 = Ok R2 ->
        R2 = R1).
Proof.
  split; [reflexivity|]. split; [reflexivity|].
  intro H.
  specialize (H (dataset []) (dataset [relationship_record "A" "B"])
                (Some []) _ eq_refl eq_refl).
  discriminate.
Qed.

(** ** Identifier resolution *)

Lemma py_get_dict (d : list (string * value)) (k : string) :
  py_get (VDict d) k = Ok (field_or_none d k).
Proof. reflexivity. Qed.

(** An entry that is passed over hands the loop to the rest of the list. *)
Lemma set_id_loop_skip (p : value) (rest : list value) :
  reference_entry p = true -> qualifies p = false ->
  _set_id_loop (p :: rest) = _set_id_loop rest.
Proof.
  intros Hp Hq. destruct p as [| | | | |e]; try discriminate.
  simpl in *. unfold field_or_none.
  destruct (dict_get e "source_name") as [[| | |sn| |]|]; try discriminate.
  simpl. apply orb_false_elim in Hq. destruct Hq as [-> ->]. reflexivity.
Qed.

(** A qualifying entry ends the loop with its [external_id]. *)
Lemma set_id_loop_hit (p : value) (rest : list value) :
  qualifies p = true ->
  _set_id_loop (p :: rest) = Ok (Some (external_id_of p)).
Proof.
  intro Hq. destruct p as [| | | | |e]; try discriminate.
  simpl in *. unfold field_or_none.
  destruct (dict_get e "source_name") as [[| | |sn| |]|]; try discriminate.
  simpl. destruct (String.eqb sn "mitre-attack"); simpl in *; [reflexivity|].
  now rewrite Hq.
Qed.

Lemma set_id_loop_find (references : list value) :
  forallb reference_entry references = true ->
  _set_id_loop references =
  Ok (option_map external_id_of (find qualifies references)).
Proof.
  induction references as [|p rest IH]; [reflexivity|].
  intro H. apply andb_prop in H. destruct H as [Hp Hrest].
  cbn [find]. destruct (qualifies p) eqn:Hq.
  - now apply set_id_loop_hit.
  - rewrite set_id_loop_skip by assumption. now apply IH.
Qed.

Lemma set_id_list (obj : list (string * value)) (references : list value) :
  dict_get obj "external_references" = Some (VList references) ->
  _set_id (VDict obj) =
  (found <- _set_id_loop references;;
   match found with
   | Some external_id => Ok external_id
   | None => Ok (VStr "No ID Defined")
   end).
Proof.
  intro H. unfold _set_id. rewrite py_get_dict. unfold field_or_none, py_getitem.
  rewrite H. destruct references; reflexivity.
Qed.

(** C1, as the code has it: the first entry in list order that qualifies,
    by either test, gives the identifier.  An entry named ["mitre-attack"]
    wins over everything after it, whatever it is, and over nothing that
    qualifies before it. *)
Theorem set_id_first_qualifying (obj : list (string * value))
    (before after : list value) (p : value) :
  dict_get obj "external_references" = Some (VList (before ++ p :: after)) ->
  forallb reference_entry before = true ->
  existsb qualifies before = false ->
  qualifies p = true ->
  _set_id (VDict obj) = Ok (external_id_of p).
Proof.
  intros Hrefs Hentries Hnone Hp.
  rewrite (set_id_list _ _ Hrefs).
  assert (Hloop : _set_id_loop (before ++ p :: after)
                  = Ok (Some (external_id_of p))).
  { clear Hrefs. induction before as [|q before IH]; simpl app.
    - now apply set_id_loop_hit.
    - simpl in Hentries, Hnone.
      apply andb_prop in Hentries. destruct Hentries as [Hq Hentries].
      apply orb_false_elim in Hnone. destruct Hnone as [Hnq Hnone].
      rewrite set_id_loop_skip by assumption. now apply IH. }
  now rewrite Hloop.
Qed.

Lemma set_id_first_qualifying_example :
  _set_id (VDict [("external_references",
                   VList ([VDict [("source_name", VStr "capec")]]
                          ++ mitre_reference :: [nist_reference; VInt 7]))])
  = Ok (external_id_of mitre_reference).
Proof.
  apply (set_id_first_qualifying _ [VDict [("source_name", VStr "capec")]]
           [nist_reference; VInt 7] mitre_reference); reflexivity.
Defined.

(** A NIST entry placed before the ["mitre-attack"] entry gives the
    identifier. *)
Lemma nist_entry_before_mitre_entry :
  _set_id (VDict [("external_references",
                   VList [nist_reference; mitre_reference])])
  = Ok (VStr "AC-2") /\
  ~ (forall obj references p,
        dict_get obj "external_references" = Some (VList references) ->
        In p references ->
        py_get p "source_name" = Ok (VStr "mitre-attack") ->
        _set_id (VDict obj) = py_get p "external_id").
Proof.
  split; [reflexivity|].
  intro H.
  specialize (H [("external_references", VList [nist_reference; mitre_reference])]
                [nist_reference; mitre_reference] mitre_reference
                eq_refl (or_intror (or_introl eq_refl)) eq_refl).
  discriminate.
Qed.

Lemma set_id_entries (obj : list (string * value)) (references : list value) :
  references_of obj = Some references ->
  forallb reference_entry references = true ->
  _set_id (VDict obj) = Ok (resolve_identifier references).
Proof.
  intros Hrefs Hentries. unfold references_of, entries_of in Hrefs.
  unfold resolve_identifier.
  destruct (dict_get obj "external_references") as [v|] eqn:Hget.
  - destruct (truthy v) eqn:Hv.
    + destruct v; try discriminate. injection Hrefs as ->.
      rewrite (set_id_list _ _ Hget).
      rewrite set_id_loop_find by assumption.
      now destruct (find qualifies references).
    + injection Hrefs as <-. unfold _set_id. rewrite py_get_dict.
      unfold field_or_none. rewrite Hget. cbn [bind]. now rewrite Hv.
  - injection Hrefs as <-. unfold _set_id. rewrite py_get_dict.
    unfold field_or_none. now rewrite Hget.
Qed.

(** C5, as the code has it: for a record whose references are reference
    entries, none when the field is absent or empty, the identifier is what
    the first qualifying entry holds under [external_id], which is [None]
    when that entry has no such field, and the sentinel when no entry
    qualifies. *)
Theorem set_id_resolution (obj : list (string * value)) (references : list value) :
  references_of obj = Some references ->
  forallb reference_entry references = true ->
  _set_id (VDict obj) =
  Ok (match find qualifies references with
      | Some p => external_id_of p
      | None => VStr "No ID Defined"
      end).
Proof. exact (set_id_entries obj references). Qed.

Lemma set_id_resolution_example :
  _set_id (VDict [("name", VStr "Valid Accounts");
                  ("external_references",
                   VList [VDict [("source_name", VStr "capec")];
                          nist_reference; mitre_reference])])
  = Ok (VStr "AC-2") /\
  _set_id (VDict [("name", VStr "Valid Accounts")]) = Ok (VStr "No ID Defined").
Proof.
  split.
  - apply (set_id_resolution
             [("name", VStr "Valid Accounts");
              ("external_references",
               VList [VDict [("source_name", VStr "capec")];
                      nist_reference; mitre_reference])]
             [VDict [("source_name", VStr "capec")];
              nist_reference; mitre_reference]); reflexivity.
  - apply (set_id_resolution [("name", VStr "Valid Accounts")] []);
      reflexivity.
Defined.

(** A qualifying entry without [external_id] makes the identifier [None]. *)
Lemma set_id_without_external_id :
  _set_id (VDict [("external_references",
                   VList [VDict [("source_name", VStr "mitre-attack")]])])
  = Ok VNone /\
  ~ (forall obj, exists s, _set_id obj = Ok (VStr s)).
Proof.
  split; [reflexivity|].
  intro H.
  destruct (H (VDict [("external_references",
                       VList [VDict [("source_name", VStr "mitre-attack")]])]))
    as [s Hs].
  discriminate.
Qed.

(** ** Attribute extraction *)

Lemma truthy_false (v : value) : truthy v = false <-> In v falsy_values.
Proof.
  unfold falsy_values. split.
  - destruct v as [|b|n|s|l|d]; simpl; intro H.
    + auto.
    + subst. auto.
    + apply negb_false_iff, Z.eqb_eq in H. subst. auto.
    + apply negb_false_iff, String.eqb_eq in H. subst. auto 6.
    + destruct l; [auto 6|discriminate].
    + destruct d; [auto 7|discriminate].
  - simpl. intros [H|[H|[H|[H|[H|[H|[]]]]]]]; subst; reflexivity.
Qed.

(** The handler of [_set_attribute] catches whatever the lookup raises. *)
Lemma set_attribute_returns (obj : value) (name : string) :
  returns (_set_attribute obj name).
Proof.
  unfold _set_attribute, try_except.
  destruct (py_get obj name) as [v|e]; simpl; eexists; reflexivity.
Qed.

Lemma set_attribute_dict (obj : list (string * value)) (name : string) :
  _set_attribute (VDict obj) name = Ok (attribute obj name).
Proof.
  unfold _set_attribute, attribute. simpl.
  destruct (dict_get obj name) as [v|]; [|reflexivity].
  now destruct (truthy v).
Qed.

(** C7: [_set_attribute] gives the field itself when it is present and
    truthy, and [None] when the field is missing or holds one of the falsy
    values, the empty string among them. *)
Theorem set_attribute_extracts (obj : list (string * value)) (name : string) :
  (forall v, dict_get obj name = Some v -> truthy v = true ->
             _set_attribute (VDict obj) name = Ok v) /\
  (forall v, dict_get obj name = Some v -> In v falsy_values ->
             _set_attribute (VDict obj) name = Ok VNone) /\
  (dict_get obj name = None -> _set_attribute (VDict obj) name = Ok VNone).
Proof.
  rewrite set_attribute_dict. unfold attribute.
  split; [|split].
  - intros v -> ->. reflexivity.
  - intros v -> Hv. apply truthy_false in Hv. now rewrite Hv.
  - intros ->. reflexivity.
Qed.

Lemma set_attribute_extracts_example :
  _set_attribute (VDict technique_record) "name" = Ok (VStr "Valid Accounts") /\
  _set_attribute (VDict technique_record) "description" = Ok VNone /\
  _set_attribute (VDict technique_record) "created" = Ok VNone.
Proof.
  split; [|split].
  - apply (proj1 (set_attribute_extracts technique_record "name")
             (VStr "Valid Accounts")); reflexivity.
  - apply (proj1 (proj2 (set_attribute_extracts technique_record "description"))
             (VStr "")); [reflexivity|].
    simpl. auto.
  - apply (proj2 (proj2 (set_attribute_extracts technique_record "created"))).
    reflexivity.
Defined.

(** C8: [_set_list_items] gives a copy of the list under [list_name], in
    order, also when that list is empty, and [None] when the record has no
    such field. *)
Theorem set_list_items_copies (obj : list (string * value)) (list_name : string) :
  (forall items, dict_get obj list_name = Some (VList items) ->
                 _set_list_items (VDict obj) list_name = Ok (VList items)) /\
  (dict_get obj list_name = None ->
   _set_list_items (VDict obj) list_name = Ok VNone).
Proof.
  unfold _set_list_items, py_contains, py_getitem. split.
  - intros items ->. simpl. now rewrite for_each_append.
  - intros ->. reflexivity.
Qed.

Lemma set_list_items_copies_example :
  _set_list_items (VDict technique_record) "x_mitre_platforms"
  = Ok (VList [VStr "Windows"; VStr "Linux"]) /\
  _set_list_items (VDict technique_record) "x_mitre_contributors"
  = Ok (VList []) /\
  _set_list_items (VDict technique_record) "x_mitre_data_sources" = Ok VNone.
Proof.
  split; [|split].
  - apply (proj1 (set_list_items_copies technique_record "x_mitre_platforms")).
    reflexivity.
  - apply (proj1 (set_list_items_copies technique_record "x_mitre_contributors")).
    reflexivity.
  - apply (proj2 (set_list_items_copies technique_record "x_mitre_data_sources")).
    reflexivity.
Defined.

(** ** Aliases and references *)

(** A truthy field is read again with a subscript and iterated, a falsy or
    missing one is skipped: either way the entries are appended in order. *)
Lemma append_entries (obj : list (string * value)) (name : string)
    (entries acc : list value) :
  entries_of obj name = Some entries ->
  (field <- py_get (VDict obj) name;;
   if truthy field then
     field <- py_getitem (VDict obj) name;;
     items <- py_iter field;;
     for_each append_item items acc
   else Ok acc) = Ok (acc ++ entries).
Proof.
  unfold entries_of, py_get, py_getitem. intro H.
  destruct (dict_get obj name) as [v|]; simpl.
  - destruct (truthy v) eqn:Hv.
    + destruct v; try discriminate. injection H as ->.
      simpl. apply for_each_append.
    + injection H as <-. now rewrite app_nil_r.
  - injection H as <-. now rewrite app_nil_r.
Qed.

Lemma set_alias_entries (obj : list (string * value))
    (primary secondary : list value) :
  entries_of obj "aliases" = Some primary ->
  entries_of obj "x_mitre_aliases" = Some secondary ->
  __set_alias (VDict obj) = Ok (VList (primary ++ secondary)).
Proof.
  intros Hp Hs. unfold __set_alias.
  pose proof (append_entries obj "aliases" primary [] Hp) as H1.
  pose proof (append_entries obj "x_mitre_aliases" secondary primary Hs) as H2.
  unfold py_get in *. cbn [bind] in *.
  rewrite H1. cbn [bind app]. now rewrite H2.
Qed.

(** C6, as the code has it: for a record whose [aliases] and
    [x_mitre_aliases] are each missing, falsy or a list, [__set_alias] gives
    the entries of the first followed by those of the second, each
    contributing nothing when missing or empty; the result is then a list,
    never [None]. *)
Theorem set_alias_concatenates (obj : list (string * value))
    (primary secondary : list value) :
  entries_of obj "aliases" = Some primary ->
  entries_of obj "x_mitre_aliases" = Some secondary ->
  __set_alias (VDict obj) = Ok (VList (primary ++ secondary)).
Proof. exact (set_alias_entries obj primary secondary). Qed.

Lemma set_alias_concatenates_example :
  __set_alias (VDict technique_record)
  = Ok (VList ([VStr "A"; VStr "B"] ++ [VStr "C"])) /\
  __set_alias (VDict [("name", VStr "Valid Accounts")]) = Ok (VList ([] ++ [])).
Proof.
  split.
  - apply (set_alias_concatenates technique_record
             [VStr "A"; VStr "B"] [VStr "C"]); reflexivity.
  - apply (set_alias_concatenates [("name", VStr "Valid Accounts")] [] []);
      reflexivity.
Defined.

(** A number under [aliases] is truthy and cannot be iterated: the loop
    raises and no list comes back. *)
Lemma set_alias_on_a_number :
  __set_alias (VDict [("name", VStr "APT1"); ("aliases", VInt 7)])
  = Raise TypeError /\
  ~ (forall obj : list (string * value),
        exists items, __set_alias (VDict obj) = Ok (VList items)).
Proof.
  split; [reflexivity|].
  intro H.
  destruct (H [("name", VStr "APT1"); ("aliases", VInt 7)]) as [items Hitems].
  discriminate.
Qed.

Lemma set_reference_copies (obj : list (string * value)) (references : list value) :
  references_of obj = Some references ->
  _set_reference (VDict obj) = Ok (VList references).
Proof.
  intro H. unfold _set_reference.
  pose proof (append_entries obj "external_references" references [] H) as H1.
  unfold py_get in *. cbn [bind] in *.
  now rewrite H1.
Qed.

(** ** Construction *)

Lemma init_fields (kwargs : list (string * value))
    (references primary secondary : list value) :
  references_of kwargs = Some references ->
  forallb reference_entry references = true ->
  entries_of kwargs "aliases" = Some primary ->
  entries_of kwargs "x_mitre_aliases" = Some secondary ->
  __init__ kwargs =
  Ok {| id := resolve_identifier references;
        name := attribute kwargs "name";
        alias := VList (primary ++ secondary);
        aliases := VList (primary ++ secondary);
        description := attribute kwargs "description";
        reference := VList references;
        created := attribute kwargs "created";
        modified := attribute kwargs "modified";
        stix := attribute kwargs "id";
        type := attribute kwargs "type" |}.
Proof.
  intros Hrefs Hentries Hp Hs. unfold __init__.
  rewrite (set_id_entries _ _ Hrefs Hentries).
  rewrite (set_alias_entries _ _ _ Hp Hs).
  rewrite (set_reference_copies _ _ Hrefs).
  rewrite !set_attribute_dict. reflexivity.
Qed.

(** C3, as the code has it: [_set_attribute] never raises, whatever it is
    given, and construction completes with every attribute set for a record
    whose references are reference entries and whose two alias fields are
    lists, each possibly missing or empty. *)
Theorem construction_completes (kwargs : list (string * value))
    (references primary secondary : list value) :
  references_of kwargs = Some references ->
  forallb reference_entry references = true ->
  entries_of kwargs "aliases" = Some primary ->
  entries_of kwargs "x_mitre_aliases" = Some secondary ->
  (forall obj name, returns (_set_attribute obj name)) /\
  exists self,
    __init__ kwargs = Ok self /\
    id self = resolve_identifier references /\
    alias self = VList (primary ++ secondary) /\
    aliases self = alias self /\
    reference self = VList references /\
    name self = attribute kwargs "name" /\
    description self = attribute kwargs "description" /\
    created self = attribute kwargs "created" /\
    modified self = attribute kwargs "modified" /\
    stix self = attribute kwargs "id" /\
    type self = attribute kwargs "type".
Proof.
  intros Hrefs Hentries Hp Hs. split; [exact set_attribute_returns|].
  eexists. split; [exact (init_fields _ _ _ _ Hrefs Hentries Hp Hs)|].
  repeat split.
Qed.

Lemma construction_completes_example :
  (forall obj name, returns (_set_attribute obj name)) /\
  exists self,
    __init__ technique_record = Ok self /\
    id self = resolve_identifier [mitre_reference; nist_reference] /\
    alias self = VList ([VStr "A"; VStr "B"] ++ [VStr "C"]) /\
    aliases self = alias self /\
    reference self = VList [mitre_reference; nist_reference] /\
    name self = attribute technique_record "name" /\
    description self = attribute technique_record "description" /\
    created self = attribute technique_record "created" /\
    modified self = attribute technique_record "modified" /\
    stix self = attribute technique_record "id" /\
    type self = attribute technique_record "type".
Proof.
  apply (construction_completes technique_record
           [mitre_reference; nist_reference] [VStr "A"; VStr "B"] [VStr "C"]);
    reflexivity.
Defined.

(** A reference entry without [source_name] makes the constructor raise,
    and so does a data source with two separators in
    [_create_data_sources_dict]. *)
Lemma malformed_records_raise :
  __init__ [("name", VStr "Valid Accounts");
            ("external_references",
             VList [VDict [("external_id", VStr "T1078")]])]
  = Raise TypeError /\
  _create_data_sources_dict (VList [VStr "Process: OS: Creation"])
  = Raise ValueError /\
  ~ (forall kwargs, returns (__init__ kwargs)).
Proof.
  split; [reflexivity|]. split; [reflexivity|].
  intro H.
  destruct (H [("name", VStr "Valid Accounts");
               ("external_references",
                VList [VDict [("external_id", VStr "T1078")]])]) as [self Hself].
  discriminate.
Qed.

(** ** Data sources *)

Lemma prefix_separator (c : ascii) (s : string) :
  String.prefix ":" (String c s) = Ascii.eqb c ":".
Proof.
  cbn [String.prefix]. destruct (ascii_dec ":" c) as [<-|E].
  - now destruct s.
  - symmetry. apply Ascii.eqb_neq. congruence.
Qed.

Lemma str_contains_separator (c : ascii) (s : string) :
  str_contains ":" (String c s) = Ascii.eqb c ":" || str_contains ":" s.
Proof. cbn [str_contains]. now rewrite prefix_separator. Qed.

Lemma split_no_separator (s : string) :
  separators s = 0 ->
  str_contains ":" s = false /\ cut s = None /\ split ":" s = [s].
Proof.
  induction s as [|c s IH]; [now auto|].
  rewrite str_contains_separator. cbn [separators cut split].
  destruct (Ascii.eqb c ":"); [discriminate|].
  intro H. destruct (IH H) as (-> & -> & ->). auto.
Qed.

Lemma split_one_separator (s : string) :
  separators s = 1 ->
  exists source component,
    cut s = Some (source, component) /\
    str_contains ":" s = true /\
    split ":" s = [source; component].
Proof.
  induction s as [|c s IH]; [discriminate|].
  rewrite str_contains_separator. cbn [separators cut split].
  destruct (Ascii.eqb c ":"); intro H.
  - injection H as H. destruct (split_no_separator s H) as (_ & _ & ->).
    exists EmptyString, s. auto.
  - destruct (IH H) as (source & component & -> & -> & ->).
    exists (String c source), component. auto.
Qed.

(** One iteration on an entry with at most one separator. *)
Lemma data_source_item_cut (return_dict : index) (s : string) :
  separators s <= 1 ->
  data_source_item return_dict (VStr s) =
  Ok (match cut s with
      | Some (source, component) =>
          push (VStr source) (VStr (strip component)) return_dict
      | None => return_dict
      end).
Proof.
  intro H. unfold data_source_item, py_contains, py_split.
  destruct (separators s) as [|[|n]] eqn:Hn; [| |lia].
  - destruct (split_no_separator s Hn) as (-> & -> & _). reflexivity.
  - destruct (split_one_separator s Hn) as (source & component & -> & -> & ->).
    cbn [bind unpack2 fst snd].
    now apply setdefault_append.
Qed.

Lemma data_sources_related (items : list string) (m0 : index) :
  forallb (fun s => Nat.leb (separators s) 1) items = true ->
  no_empty_list m0 ->
  exists m,
    for_each data_source_item (map VStr items) m0 = Ok m /\
    no_empty_list m /\
    forall source,
      related m (VStr source) = related m0 (VStr source) ++ components source items.
Proof.
  revert m0. induction items as [|s items IH]; intros m0 H Hm0.
  - exists m0. split; [reflexivity|]. split; [assumption|].
    intro. simpl. now rewrite app_nil_r.
  - simpl in H. apply andb_prop in H. destruct H as [Hs Hitems].
    apply Nat.leb_le in Hs.
    simpl map. cbn [for_each]. rewrite (data_source_item_cut m0 s Hs).
    cbn [bind].
    destruct (IH (match cut s with
                  | Some (source, component) =>
                      push (VStr source) (VStr (strip component)) m0
                  | None => m0
                  end) Hitems) as (m & Hm & Hne & Hrel).
    { destruct (cut s) as [[src component]|]; [|assumption].
      now apply no_empty_list_push. }
    exists m. split; [exact Hm|]. split; [exact Hne|].
    intro source. rewrite Hrel. unfold components. cbn [flat_map].
    destruct (cut s) as [[src component]|].
    + rewrite related_push by reflexivity. simpl key_eqb.
      now rewrite <- app_assoc.
    + reflexivity.
Qed.

(** C9, as the code has it: on a list of strings with at most one separator
    each, [_create_data_sources_dict] groups the trimmed components by
    source in encounter order and passes over the entries without a
    separator, binding no key for them; on anything that is not a list it
    gives the empty dict. *)
Theorem create_data_sources_dict_groups (items : list string) :
  forallb (fun s => Nat.leb (separators s) 1) items = true ->
  (exists m,
      _create_data_sources_dict (VList (map VStr items)) = Ok m /\
      forall source,
        idx_lookup (VStr source) m = binding (components source items)) /\
  (forall obj, (forall l, obj <> VList l) ->
               _create_data_sources_dict obj = Ok []).
Proof.
  intro H. split.
  - destruct (data_sources_related items [] H no_empty_list_nil)
      as (m & Hm & Hne & Hrel).
    exists m. split; [exact Hm|]. intro source.
    rewrite (lookup_binding m _ Hne). now rewrite Hrel.
  - intros obj Hobj. destruct obj as [| | | |l|]; try reflexivity.
    now destruct (Hobj l).
Qed.

Lemma create_data_sources_dict_groups_example :
  (exists m,
      _create_data_sources_dict (VList (map VStr sample_data_sources)) = Ok m /\
      m = [(VStr "Process", [VStr "Process Creation"]);
           (VStr "File", [VStr "File Access"])] /\
      idx_lookup (VStr "Process") m = Some [VStr "Process Creation"] /\
      idx_lookup (VStr "File") m = Some [VStr "File Access"] /\
      idx_lookup (VStr "nocolon") m = None) /\
  _create_data_sources_dict VNone = Ok [].
Proof.
  destruct (create_data_sources_dict_groups sample_data_sources eq_refl)
    as ((m & Hm & Hbind) & Hother).
  split.
  - exists m. split; [exact Hm|].
    rewrite !Hbind. injection Hm as <-. repeat split; reflexivity.
  - apply Hother. discriminate.
Defined.

(** An entry with two separators makes the whole call raise. *)
Lemma two_separators_raise :
  _create_data_sources_dict
    (VList (map VStr ["Process: Process Creation"; "Network: Traffic: Flow"]))
  = Raise ValueError /\
  ~ (forall items : list string,
        returns (_create_data_sources_dict (VList (map VStr items)))).
Proof.
  split; [reflexivity|].
  intro H.
  destruct (H ["Process: Process Creation"; "Network: Traffic: Flow"]) as [m Hm].
  discriminate.
Qed.

(** * Further properties *)

(** ** The wiki link *)

Lemma set_wiki_loop_find (references : list value) :
  forallb is_dict references = true ->
  _set_wiki_loop references = Ok (option_map url_of (find is_mitre references)).
Proof.
  induction references as [|p rest IH]; [reflexivity|].
  intro H. apply andb_prop in H. destruct H as [Hp Hrest].
  destruct p as [| | | | |e]; try discriminate.
  cbn [_set_wiki_loop find is_mitre]. rewrite !py_get_dict. cbn [bind].
  destruct (py_eq_str (field_or_none e "source_name") "mitre-attack").
  - reflexivity.
  - now apply IH.
Qed.

(** X1: [_set_wiki] gives the [url] of the first entry named
    ["mitre-attack"], [None] when there is none.  It only compares the
    source name, so entries without one are passed over and entries naming
    NIST never answer. *)
Theorem set_wiki_first_mitre (obj : list (string * value))
    (references : list value) :
  references_of obj = Some references ->
  forallb is_dict references = true ->
  _set_wiki (VDict obj) =
  Ok (match find is_mitre references with
      | Some p => url_of p
      | None => VNone
      end).
Proof.
  intros Hrefs Hdicts. unfold references_of, entries_of in Hrefs.
  unfold _set_wiki. rewrite py_get_dict. unfold field_or_none, py_getitem.
  destruct (dict_get obj "external_references") as [v|]; cbn [bind].
  - destruct (truthy v) eqn:Hv.
    + destruct v; try discriminate. injection Hrefs as ->.
      cbn [bind py_iter]. rewrite set_wiki_loop_find by assumption.
      now destruct (find is_mitre references).
    + now injection Hrefs as <-.
  - now injection Hrefs as <-.
Qed.

Lemma set_wiki_first_mitre_example :
  _set_wiki (VDict group_record)
  = Ok (VStr "https://attack.mitre.org/groups/G0006") /\
  _set_wiki (VDict [("external_references", VList [nist_reference])]) = Ok VNone.
Proof.
  split.
  - apply (set_wiki_first_mitre group_record
             [VDict [("external_id", VStr "G0006")];
              VDict [("source_name", VStr "mitre-attack");
                     ("url", VStr "https://attack.mitre.org/groups/G0006")]]);
      reflexivity.
  - apply (set_wiki_first_mitre
             [("external_references", VList [nist_reference])]
             [nist_reference]); reflexivity.
Defined.

(** ** References *)

(** X2: [_set_reference] gives the reference list as it stands, entries of
    any shape included, and the empty list when the field is missing or
    empty. *)
Theorem set_reference_keeps_order (obj : list (string * value))
    (references : list value) :
  references_of obj = Some references ->
  _set_reference (VDict obj) = Ok (VList references).
Proof. exact (set_reference_copies obj references). Qed.

Lemma set_reference_keeps_order_example :
  _set_reference (VDict technique_record)
  = Ok (VList [mitre_reference; nist_reference]) /\
  _set_reference (VDict [("name", VStr "Valid Accounts")]) = Ok (VList []).
Proof.
  split.
  - apply (set_reference_keeps_order technique_record
             [mitre_reference; nist_reference]); reflexivity.
  - apply (set_reference_keeps_order [("name", VStr "Valid Accounts")] []);
      reflexivity.
Defined.

(** ** Attributes *)

(** X3: whatever it is given, [_set_attribute] returns, and what it returns
    is [None] or a truthy value: no empty string, zero, [False] or empty
    container comes out of it. *)
Theorem set_attribute_none_or_truthy (obj : value) (name : string) :
  exists v, _set_attribute obj name = Ok v /\ (v = VNone \/ truthy v = true).
Proof.
  unfold _set_attribute, try_except.
  destruct (py_get obj name) as [v|e]; cbn [bind].
  - destruct (truthy v) eqn:Hv; simpl; eauto.
  - eauto.
Qed.

(** X4: for a field that is present, [_set_list_items] lists what a loop
    over the field yields: the characters of a string and the keys of a dict
    as well as the items of a list.  A field holding [None], a boolean or a
    number raises [TypeError]. *)
Theorem set_list_items_iterates (obj : list (string * value))
    (list_name : string) (field : value) :
  dict_get obj list_name = Some field ->
  (forall items, py_iter field = Ok items ->
                 _set_list_items (VDict obj) list_name = Ok (VList items)) /\
  (iterable field = false ->
   _set_list_items (VDict obj) list_name = Raise TypeError).
Proof.
  intro Hfield. unfold _set_list_items, py_contains, py_getitem.
  rewrite Hfield. cbn [bind]. split.
  - intros items ->. cbn [bind]. now rewrite for_each_append.
  - intro H. destruct field; try discriminate; reflexivity.
Qed.

Lemma set_list_items_iterates_example :
  _set_list_items (VDict group_record) "name"
  = Ok (VList [VStr "A"; VStr "P"; VStr "T"; VStr "1"]) /\
  _set_list_items (VDict group_record) "x_mitre_version" = Raise TypeError.
Proof.
  split.
  - apply (proj1 (set_list_items_iterates group_record "name" (VStr "APT1")
                    eq_refl)).
    reflexivity.
  - apply (proj2 (set_list_items_iterates group_record "x_mitre_version" VNone
                    eq_refl)).
    reflexivity.
Defined.

(** X5: on a field that holds a list the two extractors agree, except on
    the empty list, which [_set_attribute] turns into [None] and
    [_set_list_items] keeps. *)
Theorem extractors_on_lists (obj : list (string * value)) (name : string)
    (items : list value) :
  dict_get obj name = Some (VList items) ->
  _set_list_items (VDict obj) name = Ok (VList items) /\
  _set_attribute (VDict obj) name =
  Ok (match items with
      | [] => VNone
      | _ :: _ => VList items
      end).
Proof.
  intro H. split.
  - unfold _set_list_items, py_contains, py_getitem. rewrite H. cbn [bind py_iter].
    now rewrite for_each_append.
  - rewrite set_attribute_dict. unfold attribute. rewrite H.
    now destruct items.
Qed.

Lemma extractors_on_lists_example :
  (_set_list_items (VDict group_record) "labels" = Ok (VList []) /\
   _set_attribute (VDict group_record) "labels" = Ok VNone) /\
  (_set_list_items (VDict technique_record) "aliases"
   = Ok (VList [VStr "A"; VStr "B"]) /\
   _set_attribute (VDict technique_record) "aliases"
   = Ok (VList [VStr "A"; VStr "B"])).
Proof.
  split.
  - apply (extractors_on_lists group_record "labels" []). reflexivity.
  - apply (extractors_on_lists technique_record "aliases" [VStr "A"; VStr "B"]).
    reflexivity.
Defined.

(** ** Aliases *)

(** The guarded loop the list-building methods share. *)
Lemma append_loop (obj : list (string * value)) (name : string)
    (acc : list value) :
  (field <- py_get (VDict obj) name;;
   if truthy field then
     field <- py_getitem (VDict obj) name;;
     items <- py_iter field;;
     for_each append_item items acc
   else Ok acc) =
  if loopable obj name then Ok (acc ++ loop_entries obj name)
  else Raise TypeError.
Proof.
  unfold loopable, loop_entries, py_get, py_getitem, field_or_none.
  destruct (dict_get obj name) as [v|]; cbn [bind].
  - destruct (truthy v) eqn:Hv; cbn [negb orb].
    + destruct v; cbn [iterable py_iter bind];
        try reflexivity; apply for_each_append.
    + now rewrite app_nil_r.
  - cbn [truthy negb orb]. now rewrite app_nil_r.
Qed.

Lemma set_alias_loops_aux (obj : list (string * value)) :
  __set_alias (VDict obj) = Raise TypeError \/
  __set_alias (VDict obj) =
  Ok (VList (loop_entries obj "aliases" ++ loop_entries obj "x_mitre_aliases")).
Proof.
  unfold __set_alias.
  pose proof (append_loop obj "aliases" []) as H1.
  unfold py_get in H1. cbn [bind] in H1. unfold py_get. cbn [bind].
  rewrite H1.
  destruct (loopable obj "aliases"); cbn [bind app]; [|now left].
  pose proof (append_loop obj "x_mitre_aliases" (loop_entries obj "aliases")) as H2.
  unfold py_get in H2. cbn [bind] in H2. rewrite H2.
  destruct (loopable obj "x_mitre_aliases"); cbn [bind]; auto.
Qed.

(** X6: [__set_alias] returns exactly when each alias field is missing,
    falsy or iterable, and then lists what the two loops yield, so a string
    under [aliases] comes out as its characters.  Otherwise it raises
    [TypeError]. *)
Theorem set_alias_loops (obj : list (string * value)) :
  (loopable obj "aliases" && loopable obj "x_mitre_aliases" = true ->
   __set_alias (VDict obj) =
   Ok (VList (loop_entries obj "aliases" ++ loop_entries obj "x_mitre_aliases"))) /\
  (loopable obj "aliases" && loopable obj "x_mitre_aliases" = false ->
   __set_alias (VDict obj) = Raise TypeError).
Proof.
  unfold __set_alias.
  pose proof (append_loop obj "aliases" []) as H1.
  unfold py_get in H1. cbn [bind] in H1. unfold py_get. cbn [bind].
  rewrite H1.
  destruct (loopable obj "aliases"); cbn [andb bind app].
  - pose proof (append_loop obj "x_mitre_aliases" (loop_entries obj "aliases")) as H2.
    unfold py_get in H2. cbn [bind] in H2. rewrite H2.
    destruct (loopable obj "x_mitre_aliases"); split; intro H;
      try discriminate; reflexivity.
  - split; intro H; [discriminate|reflexivity].
Qed.

Lemma set_alias_loops_example :
  __set_alias (VDict [("aliases", VStr "APT1"); ("x_mitre_aliases", VList [])])
  = Ok (VList ([VStr "A"; VStr "P"; VStr "T"; VStr "1"] ++ [])) /\
  __set_alias (VDict group_record) = Raise TypeError.
Proof.
  split.
  - apply (proj1 (set_alias_loops
                    [("aliases", VStr "APT1"); ("x_mitre_aliases", VList [])])).
    reflexivity.
  - apply (proj2 (set_alias_loops group_record)). reflexivity.
Defined.

(** ** Identifiers *)

(** X7: an entry whose [source_name] is missing, [None], a boolean or a
    number, met before any qualifying entry, makes [_set_id] raise
    [TypeError]: the NIST test looks inside the name. *)
Theorem set_id_without_source_name (obj : list (string * value))
    (before after : list value) (p : list (string * value)) :
  dict_get obj "external_references" = Some (VList (before ++ VDict p :: after)) ->
  forallb reference_entry before = true ->
  existsb qualifies before = false ->
  iterable (field_or_none p "source_name") = false ->
  _set_id (VDict obj) = Raise TypeError.
Proof.
  intros Hrefs Hentries Hnone Hp.
  rewrite (set_id_list _ _ Hrefs). clear Hrefs.
  assert (Hloop : _set_id_loop (before ++ VDict p :: after) = Raise TypeError).
  { induction before as [|q before IH]; simpl app.
    - cbn [_set_id_loop]. rewrite !py_get_dict. cbn [bind].
      destruct (field_or_none p "source_name"); try discriminate; reflexivity.
    - simpl in Hentries, Hnone.
      apply andb_prop in Hentries. destruct Hentries as [Hq Hentries].
      apply orb_false_elim in Hnone. destruct Hnone as [Hnq Hnone].
      rewrite set_id_loop_skip by assumption. now apply IH. }
  now rewrite Hloop.
Qed.

Lemma set_id_without_source_name_example :
  _set_id (VDict group_record) = Raise TypeError.
Proof.
  apply (set_id_without_source_name group_record []
           [VDict [("source_name", VStr "mitre-attack");
                   ("url", VStr "https://attack.mitre.org/groups/G0006")]]
           [("external_id", VStr "G0006")]); reflexivity.
Defined.

Lemma set_id_loop_some (references : list value) (v : value) :
  _set_id_loop references = Ok (Some v) ->
  exists p, In p references /\ py_get p "external_id" = Ok v.
Proof.
  induction references as [|p rest IH]; [discriminate|].
  cbn [_set_id_loop].
  destruct (py_get p "source_name") as [sn|]; cbn [bind]; [|discriminate].
  destruct (py_eq_str sn "mitre-attack").
  - destruct (py_get p "external_id") as [x|] eqn:Hx; cbn [bind]; [|discriminate].
    intros [= <-]. exists p. split; [now left|assumption].
  - destruct (py_contains "NIST" sn) as [[|]|]; cbn [bind]; try discriminate.
    + destruct (py_get p "external_id") as [x|] eqn:Hx; cbn [bind]; [|discriminate].
      intros [= <-]. exists p. split; [now left|assumption].
    + intro H. destruct (IH H) as (q & Hq & Hid).
      exists q. split; [now right|assumption].
Qed.

(** X8: an identifier other than the sentinel is the [external_id] of one
    of the entries [_set_reference] lists for the same record. *)
Theorem set_id_from_a_reference (obj : list (string * value)) (v : value) :
  _set_id (VDict obj) = Ok v ->
  v = VStr "No ID Defined" \/
  exists references p,
    _set_reference (VDict obj) = Ok (VList references) /\
    In p references /\
    py_get p "external_id" = Ok v.
Proof.
  unfold _set_id, _set_reference. rewrite !py_get_dict.
  unfold field_or_none, py_getitem.
  destruct (dict_get obj "external_references") as [field|]; cbn [bind truthy];
    [|intros [= <-]; now left].
  destruct (truthy field); [|intros [= <-]; now left].
  cbn [bind].
  destruct (py_iter field) as [items|]; cbn [bind]; [|discriminate].
  destruct (_set_id_loop items) as [[x|]|] eqn:Hloop; cbn [bind];
    try discriminate; intros [= <-]; [|now left].
  right. destruct (set_id_loop_some items x Hloop) as (p & Hin & Hid).
  exists items, p. rewrite for_each_append. auto.
Qed.

Lemma set_id_from_a_reference_example :
  VStr "T1078" = VStr "No ID Defined" \/
  exists references p,
    _set_reference (VDict technique_record) = Ok (VList references) /\
    In p references /\
    py_get p "external_id" = Ok (VStr "T1078").
Proof.
  apply (set_id_from_a_reference technique_record (VStr "T1078")). reflexivity.
Defined.

(** ** The constructor, whatever the record *)

Lemma set_id_loop_raises (references : list value) (e : exn) :
  _set_id_loop references = Raise e -> e = TypeError \/ e = AttributeError.
Proof.
  induction references as [|p rest IH]; [discriminate|].
  cbn [_set_id_loop].
  destruct p; cbn [py_get bind]; try (intros [= <-]; now right).
  destruct (py_eq_str _ "mitre-attack"); [discriminate|].
  destruct (py_contains "NIST" _) as [[|]|e'] eqn:Hc; cbn [bind].
  - discriminate.
  - exact IH.
  - intros [= <-]. left.
    unfold py_contains in Hc.
    destruct (match dict_get fields "source_name" with
              | Some x => x
              | None => VNone
              end); congruence.
Qed.

Lemma set_id_raises (obj : list (string * value)) (e : exn) :
  _set_id (VDict obj) = Raise e -> e = TypeError \/ e = AttributeError.
Proof.
  unfold _set_id. rewrite py_get_dict. unfold field_or_none, py_getitem.
  destruct (dict_get obj "external_references") as [field|]; cbn [bind truthy];
    [|discriminate].
  destruct (truthy field); [|discriminate]. cbn [bind].
  destruct field; cbn [py_iter bind]; try (intros [= <-]; now left).
  - destruct (_set_id_loop _) as [[x|]|e'] eqn:Hloop; cbn [bind];
      try discriminate.
    intros [= <-]. exact (set_id_loop_raises _ _ Hloop).
  - destruct (_set_id_loop _) as [[x|]|e'] eqn:Hloop; cbn [bind];
      try discriminate.
    intros [= <-]. exact (set_id_loop_raises _ _ Hloop).
  - destruct (_set_id_loop _) as [[x|]|e'] eqn:Hloop; cbn [bind];
      try discriminate.
    intros [= <-]. exact (set_id_loop_raises _ _ Hloop).
Qed.

Lemma set_alias_result (obj : list (string * value)) :
  __set_alias (VDict obj) = Raise TypeError \/
  exists items, __set_alias (VDict obj) = Ok (VList items).
Proof.
  destruct (set_alias_loops_aux obj) as [H|H]; [now left|right; eauto].
Qed.

Lemma set_reference_result (obj : list (string * value)) :
  _set_reference (VDict obj) = Raise TypeError \/
  exists items, _set_reference (VDict obj) = Ok (VList items).
Proof.
  unfold _set_reference.
  pose proof (append_loop obj "external_references" []) as H.
  unfold py_get in *. cbn [bind] in *. rewrite H.
  destruct (loopable obj "external_references"); cbn [bind]; eauto.
Qed.

(** X9: when construction completes, the two alias attributes hold the
    same list, the references are a list, the identifier is what [_set_id]
    gives, and each plain attribute is its field when that is truthy and
    [None] otherwise; [stix] is read from the field [id], not from the
    identifier. *)
Theorem init_attributes (kwargs : list (string * value)) (self : instance) :
  __init__ kwargs = Ok self ->
  _set_id (VDict kwargs) = Ok (id self) /\
  aliases self = alias self /\
  (exists items, alias self = VList items) /\
  (exists items, reference self = VList items) /\
  name self = attribute kwargs "name" /\
  description self = attribute kwargs "description" /\
  created self = attribute kwargs "created" /\
  modified self = attribute kwargs "modified" /\
  stix self = attribute kwargs "id" /\
  type self = attribute kwargs "type".
Proof.
  unfold __init__. rewrite !set_attribute_dict.
  destruct (_set_id (VDict kwargs)) as [i|]; cbn [bind]; [|discriminate].
  destruct (set_alias_result kwargs) as [Ha|[a Ha]]; rewrite Ha; cbn [bind];
    [discriminate|].
  destruct (set_reference_result kwargs) as [Hr|[r Hr]]; rewrite Hr; cbn [bind];
    [discriminate|].
  intros [= <-]. cbn. repeat split; eauto.
Qed.

Lemma init_attributes_example :
  _set_id (VDict technique_record) = Ok (VStr "T1078") /\
  VList [VStr "A"; VStr "B"; VStr "C"] = VList [VStr "A"; VStr "B"; VStr "C"] /\
  (exists items, VList [VStr "A"; VStr "B"; VStr "C"] = VList items) /\
  (exists items, VList [mitre_reference; nist_reference] = VList items) /\
  VStr "Valid Accounts" = attribute technique_record "name" /\
  VNone = attribute technique_record "description" /\
  VNone = attribute technique_record "created" /\
  VNone = attribute technique_record "modified" /\
  VStr "attack-pattern--b17a1a56" = attribute technique_record "id" /\
  VStr "attack-pattern" = attribute technique_record "type".
Proof.
  apply (init_attributes technique_record
           {| id := VStr "T1078";
              name := VStr "Valid Accounts";
              alias := VList [VStr "A"; VStr "B"; VStr "C"];
              aliases := VList [VStr "A"; VStr "B"; VStr "C"];
              description := VNone;
              reference := VList [mitre_reference; nist_reference];
              created := VNone;
              modified := VNone;
              stix := VStr "attack-pattern--b17a1a56";
              type := VStr "attack-pattern" |}).
  reflexivity.
Defined.

(** X10: the constructor raises nothing but [TypeError] and
    [AttributeError]: no [KeyError], since every subscript follows a
    successful test of the same key. *)
Theorem init_raises (kwargs : list (string * value)) (e : exn) :
  __init__ kwargs = Raise e -> e = TypeError \/ e = AttributeError.
Proof.
  unfold __init__. rewrite !set_attribute_dict.
  destruct (_set_id (VDict kwargs)) as [i|e'] eqn:Hid; cbn [bind].
  - destruct (set_alias_result kwargs) as [Ha|[a Ha]]; rewrite Ha; cbn [bind].
    + intros [= <-]. now left.
    + destruct (set_reference_result kwargs) as [Hr|[r Hr]]; rewrite Hr;
        cbn [bind]; [|discriminate].
      intros [= <-]. now left.
  - intros [= <-]. exact (set_id_raises _ _ Hid).
Qed.

Lemma init_raises_example :
  TypeError = TypeError \/ TypeError = AttributeError.
Proof.
  apply (init_raises group_record TypeError). reflexivity.
Defined.

(** ** More on the relationship index *)

Lemma for_each_app {S : Type} (body : S -> value -> result S)
    (a b : list value) (s : S) :
  for_each body (a ++ b) s = (s' <- for_each body a s;; for_each body b s').
Proof.
  revert s. induction a as [|item a IH]; intro s; [reflexivity|].
  simpl. destruct (body s item); simpl; [apply IH|reflexivity].
Qed.

Lemma set_relationships_scan (R : relationships)
    (attck_obj : list (string * value)) (objects : list value) :
  not_relationships R = true ->
  dict_get attck_obj "objects" = Some (VList objects) ->
  set_relationships R (VDict attck_obj) =
  (m <- for_each relationship_item objects [];; Ok (Some m)).
Proof.
  intros HR Hobj. unfold set_relationships, py_getitem.
  rewrite HR, Hobj. reflexivity.
Qed.

Lemma set_relationships_scanned (R : relationships)
    (attck_obj : list (string * value)) (objects : list value) (m : index) :
  not_relationships R = true ->
  dict_get attck_obj "objects" = Some (VList objects) ->
  set_relationships R (VDict attck_obj) = Ok (Some m) ->
  for_each relationship_item objects [] = Ok m.
Proof.
  intros HR Hobj H. rewrite (set_relationships_scan _ _ _ HR Hobj) in H.
  destruct (for_each relationship_item objects []); simpl in H; congruence.
Qed.

(** Whether an iteration returns depends on the record alone. *)
Lemma relationship_item_run (m m' m2 : index) (item : value) :
  relationship_item m item = Ok m' ->
  relationship_item m2 item =
  Ok (match edge_of item with
      | Some (s, t) => push t s (push s t m2)
      | None => m2
      end).
Proof.
  intro H. pose proof (relationship_item_inv _ _ _ H) as Hinv.
  destruct (edge_of item) as [[s t]|] eqn:He.
  - destruct Hinv as (Hs & Ht & _). now apply relationship_item_edge.
  - clear Hinv. unfold relationship_item in *.
    destruct item; simpl in *; try discriminate.
    + destruct (str_contains "type" s); simpl in *; [discriminate|reflexivity].
    + destruct (existsb _ items); simpl in *; [discriminate|reflexivity].
    + destruct (dict_get fields "type") as [ty|]; simpl in *; [|reflexivity].
      destruct (py_eq_str ty "relationship"); [|reflexivity].
      destruct (dict_get fields "source_ref"); simpl in *; [|discriminate].
      destruct (dict_get fields "target_ref"); simpl in *; discriminate.
Qed.

Lemma scan_rebase (items : list value) (m0 m m2 : index) :
  for_each relationship_item items m0 = Ok m ->
  returns (for_each relationship_item items m2).
Proof.
  revert m0 m2. induction items as [|item rest IH]; intros m0 m2; simpl.
  - intros _. now exists m2.
  - destruct (relationship_item m0 item) as [m1|] eqn:E; simpl; [|discriminate].
    rewrite (relationship_item_run _ _ m2 _ E). simpl. apply IH.
Qed.

Lemma scan_ends_hashable (items : list value) (m0 m : index)
    (item s t : value) :
  for_each relationship_item items m0 = Ok m ->
  In item items -> edge_of item = Some (s, t) ->
  hashable s = true /\ hashable t = true.
Proof.
  revert m0. induction items as [|i rest IH]; intros m0; simpl; [tauto|].
  destruct (relationship_item m0 i) as [m1|] eqn:E; simpl; [|discriminate].
  intros H [->|Hin] He.
  - apply relationship_item_inv in E. rewrite He in E. tauto.
  - exact (IH _ H Hin He).
Qed.

Lemma in_neighbours (k y : value) (items : list value) :
  In y (neighbours k items) <->
  exists item s t,
    In item items /\ edge_of item = Some (s, t) /\
    ((key_eqb k s = true /\ y = t) \/ (key_eqb k t = true /\ y = s)).
Proof.
  unfold neighbours. rewrite in_flat_map. split.
  - intros (item & Hin & Hy).
    destruct (edge_of item) as [[s t]|] eqn:He; [|contradiction].
    exists item, s, t. split; [assumption|]. split; [exact He|].
    unfold edge_targets in Hy. simpl in Hy. apply in_app_or in Hy.
    destruct Hy as [Hy|Hy].
    + destruct (key_eqb k s); [|contradiction].
      destruct Hy as [<-|[]]. now left.
    + destruct (key_eqb k t); [|contradiction].
      destruct Hy as [<-|[]]. now right.
  - intros (item & s & t & Hin & He & Hy).
    exists item. split; [assumption|]. rewrite He.
    unfold edge_targets. simpl. apply in_or_app.
    destruct Hy as [[-> ->]|[-> ->]]; [left|right]; now left.
Qed.

(** X11: the index is symmetric.  When [y] is listed under [x], a key equal
    to [x] is listed under [y]. *)
Theorem relationships_symmetric (R : relationships)
    (attck_obj : list (string * value)) (objects : list value) (m : index)
    (x y : value) :
  not_relationships R = true ->
  dict_get attck_obj "objects" = Some (VList objects) ->
  set_relationships R (VDict attck_obj) = Ok (Some m) ->
  In y (related m x) ->
  exists x', key_eqb x x' = true /\ In x' (related m y).
Proof.
  intros HR Hobj Hset Hy.
  pose proof (set_relationships_scanned _ _ _ _ HR Hobj Hset) as Hscan.
  rewrite (scan_related _ _ _ x Hscan) in Hy. simpl in Hy.
  apply in_neighbours in Hy.
  destruct Hy as (item & s & t & Hin & He & Hy).
  destruct (scan_ends_hashable _ _ _ _ _ _ Hscan Hin He) as [Hs Ht].
  destruct Hy as [[Hk ->]|[Hk ->]].
  - exists s. split; [assumption|].
    rewrite (scan_related _ _ _ t Hscan). simpl. apply in_neighbours.
    exists item, s, t. repeat split; try assumption.
    right. split; [now apply key_eqb_refl|reflexivity].
  - exists t. split; [assumption|].
    rewrite (scan_related _ _ _ s Hscan). simpl. apply in_neighbours.
    exists item, s, t. repeat split; try assumption.
    left. split; [now apply key_eqb_refl|reflexivity].
Qed.

Lemma relationships_symmetric_example :
  exists x',
    key_eqb (VStr "C") x' = true /\
    In x' (related [(VStr "A", [VStr "B"; VStr "C"]); (VStr "B", [VStr "A"]);
                    (VStr "C", [VStr "A"])] (VStr "A")).
Proof.
  apply (relationships_symmetric None
           [("objects", VList [relationship_record "A" "B";
                               relationship_record "A" "C"])]
           [relationship_record "A" "B"; relationship_record "A" "C"]
           [(VStr "A", [VStr "B"; VStr "C"]); (VStr "B", [VStr "A"]);
            (VStr "C", [VStr "A"])]
           (VStr "C") (VStr "A")); try reflexivity.
  simpl. now left.
Defined.

Lemma total_length_store (k : value) (l : list value) (m : index) :
  total_length (idx_store k l m) + List.length (related m k)
  = total_length m + List.length l.
Proof.
  unfold total_length, related.
  induction m as [|[k0 l0] m IH]; simpl; [lia|].
  destruct (key_eqb k k0); simpl; lia.
Qed.

Lemma total_length_push (k x : value) (m : index) :
  total_length (push k x m) = total_length m + 1.
Proof.
  unfold push.
  pose proof (total_length_store k (related m k ++ [x]) m) as H.
  rewrite length_app in H. simpl in H. lia.
Qed.

Lemma scan_total_length (items : list value) (m0 m : index) :
  for_each relationship_item items m0 = Ok m ->
  total_length m
  = total_length m0 + 2 * List.length (filter is_relationship items).
Proof.
  revert m0. induction items as [|item rest IH]; intros m0; simpl.
  - intros [= <-]. lia.
  - destruct (relationship_item m0 item) as [m1|] eqn:E; simpl; [|discriminate].
    intro H. rewrite (IH _ H). apply relationship_item_inv in E.
    unfold is_relationship.
    destruct (edge_of item) as [[s t]|].
    + destruct E as (_ & _ & ->). rewrite !total_length_push. simpl. lia.
    + now subst.
Qed.

(** X12: the lists of the index hold, all together, two entries for each
    relationship record of the dataset. *)
Theorem relationships_two_entries_per_record (R : relationships)
    (attck_obj : list (string * value)) (objects : list value) (m : index) :
  not_relationships R = true ->
  dict_get attck_obj "objects" = Some (VList objects) ->
  set_relationships R (VDict attck_obj) = Ok (Some m) ->
  total_length m = 2 * List.length (filter is_relationship objects).
Proof.
  intros HR Hobj Hset.
  pose proof (set_relationships_scanned _ _ _ _ HR Hobj Hset) as Hscan.
  now rewrite (scan_total_length _ _ _ Hscan).
Qed.

Lemma relationships_two_entries_per_record_example :
  total_length [(VStr "A", [VStr "B"; VStr "A"; VStr "A"]); (VStr "B", [VStr "A"])]
  = 2 * List.length (filter is_relationship
                       [relationship_record "A" "B";
                        VDict [("type", VStr "malware")];
                        relationship_record "A" "A"]).
Proof.
  apply (relationships_two_entries_per_record None
           [("objects", VList [relationship_record "A" "B";
                               VDict [("type", VStr "malware")];
                               relationship_record "A" "A"])]
           [relationship_record "A" "B"; VDict [("type", VStr "malware")];
            relationship_record "A" "A"]); reflexivity.
Defined.

(** X13: a key is bound in the index exactly when a relationship record of
    the dataset has it as its source or as its target. *)
Theorem relationships_bound_keys (R : relationships)
    (attck_obj : list (string * value)) (objects : list value) (m : index)
    (k : value) :
  not_relationships R = true ->
  dict_get attck_obj "objects" = Some (VList objects) ->
  set_relationships R (VDict attck_obj) = Ok (Some m) ->
  idx_lookup k m <> None <->
  exists item s t,
    In item objects /\ edge_of item = Some (s, t) /\
    (key_eqb k s = true \/ key_eqb k t = true).
Proof.
  intros HR Hobj Hset.
  pose proof (set_relationships_scanned _ _ _ _ HR Hobj Hset) as Hscan.
  rewrite (lookup_binding m k (scan_no_empty_list _ _ _ Hscan no_empty_list_nil)).
  rewrite (scan_related _ _ _ k Hscan). simpl. split.
  - intro H. destruct (neighbours k objects) as [|y l] eqn:Hn; [now destruct H|].
    assert (Hy : In y (neighbours k objects)) by (rewrite Hn; now left).
    apply in_neighbours in Hy.
    destruct Hy as (item & s & t & Hin & He & Hy).
    exists item, s, t. tauto.
  - intros (item & s & t & Hin & He & Hk).
    assert (Hy : exists y, In y (neighbours k objects)).
    { destruct Hk as [Hk|Hk]; [exists t|exists s]; apply in_neighbours;
        exists item, s, t; tauto. }
    destruct Hy as [y Hy].
    destruct (neighbours k objects); [contradiction|discriminate].
Qed.

Lemma relationships_bound_keys_example :
  idx_lookup (VStr "B") [(VStr "A", [VStr "B"]); (VStr "B", [VStr "A"])] <> None <->
  exists item s t,
    In item [VDict [("type", VStr "malware")]; relationship_record "A" "B"] /\
    edge_of item = Some (s, t) /\
    (key_eqb (VStr "B") s = true \/ key_eqb (VStr "B") t = true).
Proof.
  apply (relationships_bound_keys None
           [("objects", VList [VDict [("type", VStr "malware")];
                               relationship_record "A" "B"])]);
    reflexivity.
Defined.

Lemma scan_filter (items : list value) (m0 m : index) :
  for_each relationship_item items m0 = Ok m ->
  for_each relationship_item (filter is_relationship items) m0 = Ok m.
Proof.
  revert m0. induction items as [|item rest IH]; intros m0; simpl; [auto|].
  destruct (relationship_item m0 item) as [m1|] eqn:E; simpl; [|discriminate].
  intro H. pose proof (relationship_item_inv _ _ _ E) as Hinv.
  unfold is_relationship. destruct (edge_of item) as [[s t]|].
  - simpl. rewrite E. simpl. now apply IH.
  - subst m1. now apply IH.
Qed.

(** X14: records of another type, or without a type, leave no trace: the
    scan of a dataset stores the index it stores for the relationship
    records alone. *)
Theorem relationships_ignore_other_records (R : relationships)
    (attck_obj : list (string * value)) (objects : list value) (m : index) :
  not_relationships R = true ->
  dict_get attck_obj "objects" = Some (VList objects) ->
  set_relationships R (VDict attck_obj) = Ok (Some m) ->
  set_relationships R (dataset (filter is_relationship objects)) = Ok (Some m).
Proof.
  intros HR Hobj Hset.
  pose proof (set_relationships_scanned _ _ _ _ HR Hobj Hset) as Hscan.
  unfold dataset.
  rewrite (set_relationships_scan R [("objects", VList (filter is_relationship objects))]
             (filter is_relationship objects) HR eq_refl).
  now rewrite (scan_filter _ _ _ Hscan).
Qed.

Lemma relationships_ignore_other_records_example :
  set_relationships None
    (dataset (filter is_relationship
                [VDict [("type", VStr "malware")]; relationship_record "A" "B";
                 VDict [("name", VStr "untyped")]]))
  = Ok (Some [(VStr "A", [VStr "B"]); (VStr "B", [VStr "A"])]).
Proof.
  apply (relationships_ignore_other_records None
           [("objects", VList [VDict [("type", VStr "malware")];
                               relationship_record "A" "B";
                               VDict [("name", VStr "untyped")]])]);
    reflexivity.
Defined.

(** X15: when two lists of objects can each be scanned, so can their
    concatenation, and every adjacency list of the result is the list from
    the first part followed by the list from the second. *)
Theorem relationships_of_concatenation (a b : list value) (ma mb : index) :
  set_relationships None (dataset a) = Ok (Some ma) ->
  set_relationships None (dataset b) = Ok (Some mb) ->
  exists m,
    set_relationships None (dataset (a ++ b)) = Ok (Some m) /\
    forall k, related m k = related ma k ++ related mb k.
Proof.
  intros Ha Hb.
  apply (set_relationships_scanned None [("objects", VList a)] a ma
           eq_refl eq_refl) in Ha.
  apply (set_relationships_scanned None [("objects", VList b)] b mb
           eq_refl eq_refl) in Hb.
  destruct (scan_rebase b [] mb ma Hb) as [m Hm].
  exists m. split.
  - unfold dataset.
    rewrite (set_relationships_scan None [("objects", VList (a ++ b))] (a ++ b)
               eq_refl eq_refl).
    rewrite for_each_app, Ha. cbn [bind]. now rewrite Hm.
  - intro k. rewrite (scan_related _ _ _ k Hm), (scan_related _ _ _ k Hb).
    reflexivity.
Qed.

Lemma relationships_of_concatenation_example :
  exists m,
    set_relationships None
      (dataset ([relationship_record "A" "B"] ++ [relationship_record "C" "A"]))
    = Ok (Some m) /\
    forall k,
      related m k
      = related [(VStr "A", [VStr "B"]); (VStr "B", [VStr "A"])] k
        ++ related [(VStr "C", [VStr "A"]); (VStr "A", [VStr "C"])] k.
Proof.
  apply (relationships_of_concatenation
           [relationship_record "A" "B"] [relationship_record "C" "A"]);
    reflexivity.
Defined.

Lemma relationship_item_error (m : index) (item : list (string * value))
    (e : exn) :
  record_error item = Some e ->
  relationship_item m (VDict item) = Raise e.
Proof.
  unfold record_error, relationship_item, py_contains, py_getitem.
  destruct (dict_get item "type") as [ty|]; [|discriminate]. cbn [bind].
  destruct (py_eq_str ty "relationship"); [|discriminate].
  destruct (dict_get item "source_ref") as [s|]; cbn [bind];
    [|now intros [= <-]].
  destruct (dict_get item "target_ref") as [t|]; cbn [bind];
    [|now intros [= <-]].
  destruct (hashable s) eqn:Hs; cbn [andb].
  - destruct (hashable t) eqn:Ht; [discriminate|]. intros [= <-].
    rewrite setdefault_append_then by assumption.
    now apply setdefault_append_unhashable.
  - intros [= <-]. unfold dict_not_in. now rewrite Hs.
Qed.

(** X16: the first relationship record with a missing end stops the scan
    with [KeyError], the first one with a list or a dict for an end stops it
    with [TypeError]; the records after it are not looked at. *)
Theorem relationships_first_bad_record (R : relationships)
    (attck_obj : list (string * value)) (before after : list value)
    (bad : list (string * value)) (e : exn) :
  not_relationships R = true ->
  dict_get attck_obj "objects" = Some (VList (before ++ VDict bad :: after)) ->
  forallb scannable before = true ->
  record_error bad = Some e ->
  set_relationships R (VDict attck_obj) = Raise e.
Proof.
  intros HR Hobj Hbefore Hbad.
  rewrite (set_relationships_scan _ _ _ HR Hobj), for_each_app.
  destruct (scan_returns before [] Hbefore) as [m ->]. cbn [bind for_each].
  now rewrite (relationship_item_error m bad e Hbad).
Qed.

Lemma relationships_first_bad_record_example :
  set_relationships None
    (VDict [("objects",
             VList ([relationship_record "A" "B"]
                    ++ VDict [("type", VStr "relationship");
                              ("source_ref", VStr "A")]
                    :: [VInt 7]))])
  = Raise KeyError /\
  set_relationships (Some [])
    (VDict [("objects",
             VList ([]
                    ++ VDict [("type", VStr "relationship");
                              ("source_ref", VStr "A");
                              ("target_ref", VList [VStr "B"])]
                    :: []))])
  = Raise TypeError.
Proof.
  split.
  - apply (relationships_first_bad_record None _ [relationship_record "A" "B"]
             [VInt 7]
             [("type", VStr "relationship"); ("source_ref", VStr "A")]);
      reflexivity.
  - apply (relationships_first_bad_record (Some []) _ [] []
             [("type", VStr "relationship"); ("source_ref", VStr "A");
              ("target_ref", VList [VStr "B"])]);
      reflexivity.
Defined.

(** ** More on data sources *)

Lemma split_length (s : string) :
  List.length (split ":" s) = separators s + 1.
Proof.
  induction s as [|c s IH]; [reflexivity|].
  cbn [split separators]. destruct (Ascii.eqb c ":").
  - simpl. now rewrite IH.
  - destruct (split ":" s); simpl in *; lia.
Qed.

Lemma str_contains_separators (s : string) :
  str_contains ":" s = negb (Nat.eqb (separators s) 0).
Proof.
  induction s as [|c s IH]; [reflexivity|].
  rewrite str_contains_separator, IH. cbn [separators].
  now destruct (Ascii.eqb c ":").
Qed.

Lemma data_source_item_unpack (return_dict : index) (s : string) :
  Nat.leb 2 (separators s) = true ->
  data_source_item return_dict (VStr s) = Raise ValueError.
Proof.
  intro H. apply Nat.leb_le in H.
  unfold data_source_item, py_contains, py_split.
  rewrite str_contains_separators.
  destruct (Nat.eqb (separators s) 0) eqn:E;
    [apply Nat.eqb_eq in E; lia|].
  cbn [negb bind].
  pose proof (split_length s) as Hlen.
  destruct (split ":" s) as [|a [|b [|c pieces]]]; simpl in Hlen; try lia;
    reflexivity.
Qed.

(** X17: the first entry with two or more separators stops
    [_create_data_sources_dict] with [ValueError], whatever was grouped
    before and whatever follows. *)
Theorem data_sources_first_bad_entry (before after : list string) (s : string) :
  forallb (fun s => Nat.leb (separators s) 1) before = true ->
  Nat.leb 2 (separators s) = true ->
  _create_data_sources_dict (VList (map VStr (before ++ s :: after)))
  = Raise ValueError.
Proof.
  intros Hbefore Hs. unfold _create_data_sources_dict.
  rewrite map_app, for_each_app.
  destruct (data_sources_related before [] Hbefore no_empty_list_nil)
    as (m & -> & _).
  cbn [bind map for_each]. now rewrite data_source_item_unpack.
Qed.

Lemma data_sources_first_bad_entry_example :
  _create_data_sources_dict
    (VList (map VStr (["File: File Access"; "nocolon"]
                      ++ "a:b:c" :: ["Process: Process Creation"])))
  = Raise ValueError.
Proof.
  apply (data_sources_first_bad_entry ["File: File Access"; "nocolon"]
           ["Process: Process Creation"] "a:b:c"); reflexivity.
Defined.

Lemma lstrip_head (s : string) : starts_with_space (lstrip s) = false.
Proof.
  induction s as [|c s IH]; [reflexivity|].
  cbn [lstrip]. destruct (is_space c) eqn:Hc; [exact IH|].
  simpl. exact Hc.
Qed.

Lemma rstrip_head (s : string) :
  starts_with_space s = false -> starts_with_space (rstrip s) = false.
Proof.
  destruct s as [|c s]; [reflexivity|].
  simpl. intro Hc. rewrite Hc. now destruct (rstrip s).
Qed.

Lemma rstrip_last (s : string) : ends_with_space (rstrip s) = false.
Proof.
  induction s as [|c s IH]; [reflexivity|].
  cbn [rstrip]. destruct (rstrip s) as [|d t].
  - destruct (is_space c) eqn:Hc; [reflexivity|]. simpl. exact Hc.
  - exact IH.
Qed.

Lemma strip_trimmed (s : string) : trimmed (strip s) = true.
Proof.
  unfold trimmed, strip.
  now rewrite (rstrip_head _ (lstrip_head s)), rstrip_last.
Qed.

Lemma components_trimmed (source : string) (items : list string) :
  Forall (fun v => exists c, v = VStr c /\ trimmed c = true)
         (components source items).
Proof.
  unfold components. induction items as [|item rest IH]; [constructor|].
  cbn [flat_map]. apply Forall_app. split; [|exact IH].
  destruct (cut item) as [[src component]|]; [|constructor].
  destruct (String.eqb source src); constructor; [|constructor].
  exists (strip component). split; [reflexivity|apply strip_trimmed].
Qed.

(** X18: every component stored by [_create_data_sources_dict] is a string
    with no whitespace at either end. *)
Theorem data_sources_components_trimmed (items : list string) (m : index)
    (source : string) (l : list value) :
  forallb (fun s => Nat.leb (separators s) 1) items = true ->
  _create_data_sources_dict (VList (map VStr items)) = Ok m ->
  idx_lookup (VStr source) m = Some l ->
  Forall (fun v => exists c, v = VStr c /\ trimmed c = true) l.
Proof.
  intros Hitems Hm Hl.
  destruct (data_sources_related items [] Hitems no_empty_list_nil)
    as (m' & Hm' & _ & Hrel).
  unfold _create_data_sources_dict in Hm. rewrite Hm' in Hm.
  injection Hm as ->.
  specialize (Hrel source). unfold related in Hrel at 1. rewrite Hl in Hrel.
  simpl in Hrel. subst l. apply components_trimmed.
Qed.

Lemma data_sources_components_trimmed_example :
  Forall (fun v => exists c, v = VStr c /\ trimmed c = true)
         [VStr "Process Creation"; VStr "OS API Execution"].
Proof.
  apply (data_sources_components_trimmed
           ["Process:  Process Creation "; "File:File Access";
            "Process: OS API Execution"]
           [(VStr "Process", [VStr "Process Creation"; VStr "OS API Execution"]);
            (VStr "File", [VStr "File Access"])]
           "Process"); reflexivity.
Defined.

Lemma data_sources_total_length (items : list string) (m0 m : index) :
  forallb (fun s => Nat.leb (separators s) 1) items = true ->
  for_each data_source_item (map VStr items) m0 = Ok m ->
  total_length m
  = total_length m0 + List.length (filter (str_contains ":") items).
Proof.
  revert m0. induction items as [|s items IH]; intros m0 H; simpl.
  - intros [= <-]. lia.
  - simpl in H. apply andb_prop in H. destruct H as [Hs Hitems].
    apply Nat.leb_le in Hs.
    rewrite (data_source_item_cut m0 s Hs). cbn [bind].
    intro Hm. rewrite (IH _ Hitems Hm).
    destruct (separators s) as [|[|n]] eqn:Hn; [| |lia].
    + destruct (split_no_separator s Hn) as (-> & -> & _). reflexivity.
    + destruct (split_one_separator s Hn) as (src & component & -> & -> & _).
      rewrite total_length_push. simpl. lia.
Qed.

(** X19: the lists of the result hold, all together, one component for each
    entry that has a separator: no entry is dropped or counted twice. *)
Theorem data_sources_one_component_per_entry (items : list string) (m : index) :
  forallb (fun s => Nat.leb (separators s) 1) items = true ->
  _create_data_sources_dict (VList (map VStr items)) = Ok m ->
  total_length m = List.length (filter (str_contains ":") items).
Proof.
  intros Hitems Hm.
  now rewrite (data_sources_total_length items [] m Hitems Hm).
Qed.

Lemma data_sources_one_component_per_entry_example :
  total_length [(VStr "Process", [VStr "Process Creation"; VStr "OS API Execution"]);
                (VStr "File", [VStr "File Access"])]
  = List.length (filter (str_contains ":")
                   ["Process: Process Creation"; "nocolon"; "File:File Access";
                    "Process: OS API Execution"]).
Proof.
  apply (data_sources_one_component_per_entry
           ["Process: Process Creation"; "nocolon"; "File:File Access";
            "Process: OS API Execution"]); reflexivity.
Defined.

(** ** Self-loops *)

Lemma neighbours_app (k : value) (a b : list value) :
  neighbours k (a ++ b) = neighbours k a ++ neighbours k b.
Proof. unfold neighbours. apply flat_map_app. Qed.

(** C10: when the dataset holds a relationship record whose two ends are
    the same key [x], building the index puts [x] twice in the adjacency
    list of [x] for that record, between what the records before it and the
    records after it put there. *)
Theorem self_loop_appended_twice (R : relationships)
    (attck_obj : list (string * value)) (before after : list value)
    (item x : value) :
  not_relationships R = true ->
  dict_get attck_obj "objects" = Some (VList (before ++ item :: after)) ->
  forallb scannable (before ++ item :: after) = true ->
  edge_of item = Some (x, x) ->
  exists m,
    set_relationships R (VDict attck_obj) = Ok (Some m) /\
    idx_lookup x m
    = Some (neighbours x before ++ [x; x] ++ neighbours x after) /\
    related m x = neighbours x before ++ [x; x] ++ neighbours x after.
Proof.
  intros HR Hobj Hscan He.
  destruct (scan_returns _ [] Hscan) as [m Hm].
  exists m. split.
  - rewrite (set_relationships_scan _ _ _ HR Hobj). now rewrite Hm.
  - assert (Hx : hashable x = true).
    { apply (scan_ends_hashable _ _ _ item x x Hm); [|assumption].
      apply in_or_app. right. now left. }
    assert (Hrel : related m x
                   = neighbours x before ++ [x; x] ++ neighbours x after).
    { rewrite (scan_related _ _ _ x Hm).
      change (related [] x) with (@nil value).
      rewrite app_nil_l, neighbours_app. f_equal.
      unfold neighbours. cbn [flat_map]. rewrite He.
      unfold edge_targets. cbn [fst snd]. now rewrite key_eqb_refl. }
    split; [|exact Hrel].
    rewrite (lookup_binding m x (scan_no_empty_list _ _ _ Hm no_empty_list_nil)).
    rewrite Hrel. now destruct (neighbours x before).
Qed.

Lemma self_loop_appended_twice_example :
  (exists m,
      set_relationships None
        (VDict [("objects",
                 VList ([relationship_record "X" "B"]
                        ++ relationship_record "X" "X"
                        :: [relationship_record "C" "X"]))])
      = Ok (Some m) /\
      idx_lookup (VStr "X") m
      = Some ([VStr "B"] ++ [VStr "X"; VStr "X"] ++ [VStr "C"]) /\
      related m (VStr "X")
      = [VStr "B"] ++ [VStr "X"; VStr "X"] ++ [VStr "C"]) /\
  (exists m,
      set_relationships None
        (VDict [("objects", VList ([] ++ relationship_record "X" "X" :: []))])
      = Ok (Some m) /\
      idx_lookup (VStr "X") m = Some ([] ++ [VStr "X"; VStr "X"] ++ []) /\
      related m (VStr "X") = [] ++ [VStr "X"; VStr "X"] ++ []).
Proof.
  split.
  - apply (self_loop_appended_twice None _ [relationship_record "X" "B"]
             [relationship_record "C" "X"] (relationship_record "X" "X")
             (VStr "X")); reflexivity.
  - apply (self_loop_appended_twice None _ [] []
             (relationship_record "X" "X") (VStr "X")); reflexivity.
Defined.
